(** * GambleSniffer: the scraping helper [deploy/helper.py]

    A shallow embedding of the page-fetching helper and the properties of
    its result records.  The helper drives a Selenium browser session; the
    session is an external collaborator, so it is modelled as an arbitrary
    deterministic behaviour: a function from the history of the run (the
    clock, the commands issued so far, the console) to the duration and
    the outcome of the next command.  Every theorem quantifies over all
    such behaviours.

    Time is counted in milliseconds ([N]): [time.sleep(5)] is 5000,
    the 30 second budget of [WebDriverWait] is 30000 and its poll
    interval of half a second is 500. *)

From Stdlib Require Import NArith ZArith Lia List Ascii.
From stdpp Require Import base option strings pretty gmap.
From Equations Require Import Equations.
Import ListNotations.

Local Open Scope N_scope.
Local Open Scope string_scope.
Local Open Scope list_scope.

(** ** Python values and exceptions *)

(** The exception classes the helper distinguishes.  The first five
    derive from [Exception]: the errors of Selenium, of a Python operator,
    and any other subclass of [Exception] by its name.  The last three
    derive from [BaseException] only: a keyboard interrupt or an
    interpreter exit that arrives while a browser command is running, and
    any other such class by its name.  An [except Exception] clause does
    not catch them. *)
Inductive ExcClass : Type :=
  | TimeoutException
  | NoSuchElementException
  | WebDriverException
  | TypeError
  | OtherException (name : string)
  | KeyboardInterrupt
  | SystemExit
  | OtherBaseException (name : string).

#[global] Instance ExcClass_eq_dec : EqDecision ExcClass.
Proof. solve_decision. Defined.

(** An exception object: its class and what [str(e)] shows. *)
Record Exn : Type := mkExn { exc_class : ExcClass; exc_message : string }.

#[global] Instance Exn_eq_dec : EqDecision Exn.
Proof. solve_decision. Defined.

(** [isinstance(e, cls)] for the leaf classes of the [except] clauses. *)
Definition isinstance (e : Exn) (cls : ExcClass) : bool :=
  bool_decide (exc_class e = cls).

(** [isinstance(e, Exception)]: what [except Exception] catches. *)
Definition isinstance_Exception (e : Exn) : bool :=
  match exc_class e with
  | KeyboardInterrupt | SystemExit | OtherBaseException _ => false
  | _ => true
  end.

(** What [driver.execute_script] hands back: a JSON scalar decoded by
    Selenium.  DOM heights are integers; floats, lists and objects do not
    occur in the scripts of the helper and are left out. *)
Inductive JsVal : Type :=
  | JsNull
  | JsBool (b : bool)
  | JsInt (z : Z)
  | JsStr (s : string).

#[global] Instance JsVal_eq_dec : EqDecision JsVal.
Proof. solve_decision. Defined.

(** The values stored in a result dictionary. *)
Inductive PyVal : Type :=
  | PyNone
  | PyBool (b : bool)
  | PyStr (s : string)
  | PyDatetime (t : N)
  | PyExc (e : Exn).

#[global] Instance PyVal_eq_dec : EqDecision PyVal.
Proof. solve_decision. Defined.

(** A statement either completes with a value or raises. *)
Inductive Outcome (A : Type) : Type :=
  | Return (a : A)
  | Raise (e : Exn).
Arguments Return {A} a.
Arguments Raise {A} e.

Definition tab : string := String (Ascii.ascii_of_nat 9) "".
Definition newline : string := String (Ascii.ascii_of_nat 10) "".

Definition str_bool (b : bool) : string := if b then "True" else "False".

(** [str(v)] as [print] and f-strings apply it.  The rendering of a
    datetime is never printed by the helper; it is shown as its
    millisecond count. *)
Definition py_str (v : PyVal) : string :=
  match v with
  | PyNone => "None"
  | PyBool b => str_bool b
  | PyStr s => s
  | PyDatetime t => pretty t
  | PyExc e => exc_message e
  end.

(** Python's [a == "literal"] on a script result: only a string can be
    equal to a string, and the comparison never raises. *)
Definition py_eq_str (v : JsVal) (lit : string) : bool :=
  match v with
  | JsStr s => bool_decide (s = lit)
  | _ => false
  end.

(** The integer a value stands for in an ordering comparison ([bool] is a
    subclass of [int]). *)
Definition as_int (v : JsVal) : option Z :=
  match v with
  | JsInt z => Some z
  | JsBool b => Some (if b then 1%Z else 0%Z)
  | _ => None
  end.

(** [type(v).__name__] *)
Definition py_type_name (v : JsVal) : string :=
  match v with
  | JsNull => "NoneType"
  | JsBool _ => "bool"
  | JsInt _ => "int"
  | JsStr _ => "str"
  end.

(** Python's [a > b]: numbers compare by value, strings
    lexicographically, and any other pairing raises [TypeError] with
    CPython's message, which names the types of the two operands. *)
Definition py_gt (a b : JsVal) : Outcome bool :=
  match as_int a, as_int b with
  | Some x, Some y => Return (Z.ltb y x)
  | _, _ =>
      match a, b with
      | JsStr s, JsStr t => Return (String.ltb t s)
      | _, _ =>
          Raise (mkExn TypeError
                   ("'>' not supported between instances of '"
                    +:+ py_type_name a +:+ "' and '"
                    +:+ py_type_name b +:+ "'"))
      end
  end.

(** ** The world: clock, browser history and console *)

Inductive Event : Type :=
  | EvGet (url : string)
  | EvExecuteScript (script : string)
  | EvPageSource
  | EvSleep (ms : N).

#[global] Instance Event_eq_dec : EqDecision Event.
Proof. solve_decision. Defined.

Record World : Type := mkWorld {
  clock : N;                 (* milliseconds *)
  trace : list Event;        (* oldest first *)
  stdout : list string       (* printed lines, oldest first *)
}.

(** A browser session: for each command of the WebDriver interface, how
    long it takes and how it ends, given everything that happened before. *)
Record Browser : Type := mkBrowser {
  on_get : World -> string -> N * Outcome ();
  on_execute_script : World -> string -> N * Outcome JsVal;
  on_page_source : World -> N * Outcome string
}.

(** ** The monad of statements *)

Definition M (A : Type) : Type := World -> World * Outcome A.

#[global] Instance M_ret : MRet M := fun A a w => (w, Return a).
#[global] Instance M_bind : MBind M := fun A B f m w =>
  match m w with
  | (w', Return a) => f a w'
  | (w', Raise e) => (w', Raise e)
  end.

(** One browser command: it is recorded in the history and the clock
    advances by its duration. *)
Definition issue (ev : Event) (d : N) (w : World) : World :=
  mkWorld (clock w + d) (trace w ++ [ev]) (stdout w).

Definition driver_get (driver : Browser) (url : string) : M () :=
  fun w => let '(d, r) := on_get driver w url in (issue (EvGet url) d w, r).

Definition execute_script (driver : Browser) (script : string) : M JsVal :=
  fun w => let '(d, r) := on_execute_script driver w script in
           (issue (EvExecuteScript script) d w, r).

Definition page_source (driver : Browser) : M string :=
  fun w => let '(d, r) := on_page_source driver w in (issue EvPageSource d w, r).

Definition time_sleep (ms : N) : M () :=
  fun w => (issue (EvSleep ms) ms w, Return ()).

(** [print(a, b, ...)]: the arguments joined by single spaces. *)
Definition print (args : list string) : M () :=
  fun w => (mkWorld (clock w) (trace w) (stdout w ++ [String.concat " " args]),
            Return ()).

(** [dt.now()] *)
Definition dt_now : M N := fun w => (w, Return (clock w)).

(** [lift o] continues with an operator's outcome. *)
Definition lift {A} (o : Outcome A) : M A := fun w => (w, o).

(** ** [is_vertical_scrollbar_present] *)

Definition scroll_height_script : string :=
  "return document.documentElement.scrollHeight".
Definition viewport_height_script : string :=
  "return document.documentElement.clientHeight".

Definition is_vertical_scrollbar_present (driver : Browser) : M bool :=
  scroll_height ← execute_script driver scroll_height_script;
  viewport_height ← execute_script driver viewport_height_script;
  lift (py_gt scroll_height viewport_height).

(** ** [WebDriverWait(driver, timeout).until(method)]

    Selenium's polling wait, as its [support/wait.py] defines it: call
    [method]; a truthy value is returned; a falsy value, or an exception
    among the ignored ones ([NoSuchElementException] by default), means
    "not yet"; then give up if the clock has passed the deadline, and
    otherwise sleep for the poll interval and poll again.  The deadline
    is looked at right after a poll and before the sleep, so a poll may
    begin up to one poll interval after the deadline.  Any other
    exception of [method] propagates. *)

Definition POLL_FREQUENCY : N := 500.

(** The clock never runs backwards across a statement. *)
Definition Monotone {A} (m : M A) : Prop := forall w, clock w <= clock (m w).1.

(** One pass through the [try] of the loop body. *)
Inductive Poll : Type :=
  | Found
  | Again
  | Failed (e : Exn).

Definition attempt (method : M bool) (w : World) : World * Poll :=
  match method w with
  | (w1, Return true) => (w1, Found)
  | (w1, Return false) => (w1, Again)
  | (w1, Raise e) =>
      if isinstance e NoSuchElementException then (w1, Again) else (w1, Failed e)
  end.

(** A poll does not turn the clock back either: with the sleep that
    follows it, this is why the loop below terminates. *)
Lemma attempt_clock (method : M bool) (Hm : Monotone method) (w : World) :
  clock w <= clock (attempt method w).1.
Proof.
  unfold attempt. specialize (Hm w).
  destruct (method w) as [w1 [[|]|e]]; simpl in *; try done.
  destruct (isinstance e NoSuchElementException); done.
Qed.

(** Case analysis that remembers which case was taken. *)
Definition inspect {A : Type} (x : A) : { y : A | x = y } := exist _ x eq_refl.

(** [TimeoutException(message)] with the empty default message. *)
Definition timeout_exception : Exn :=
  mkExn TimeoutException ("Message: " +:+ newline).

(** The [while True] loop of [until].  [end_time] is
    [time.monotonic() + timeout], taken before the first poll.  Every
    pass that does not leave the loop finds the clock within the deadline
    after its poll and then sleeps for the poll interval, so the next
    pass begins at least that interval later and at most that interval
    after the deadline. *)

Equations? until_loop (method : M bool) (Hm : Monotone method) (end_time : N)
    (w : World) : World * Outcome bool
    by wf (N.to_nat (end_time + 501 - clock w)) lt :=
  until_loop method Hm end_time w with inspect (attempt method w) := {
    | exist _ (w1, Found) _ => (w1, Return true)
    | exist _ (w1, Failed e) _ => (w1, Raise e)
    | exist _ (w1, Again) Ha with inspect (N.ltb end_time (clock w1)) := {
        | exist _ true _ => (w1, Raise timeout_exception)
        | exist _ false Hc =>
            until_loop method Hm end_time (time_sleep POLL_FREQUENCY w1).1 } }.
Proof.
  pose proof (attempt_clock method Hm w) as Hle. rewrite Ha in Hle.
  apply N.ltb_ge in Hc. simpl in *. unfold POLL_FREQUENCY in *. lia.
Qed.

(** [WebDriverWait(driver, timeout).until(method)], [timeout] in ms. *)
Definition WebDriverWait_until (timeout : N) (method : M bool)
    (Hm : Monotone method) : M bool :=
  fun w => until_loop method Hm (clock w + timeout) w.

(** ** [wait_until_page_ready] *)

Definition ready_state_script : string := "return document.readyState".

(** [lambda driver: driver.execute_script("return document.readyState")=="complete"] *)
Definition page_is_complete (driver : Browser) : M bool :=
  state ← execute_script driver ready_state_script;
  mret (py_eq_str state "complete").

(** The poll of the ready state is a browser command: it takes time. *)
Lemma page_is_complete_monotone (driver : Browser) :
  Monotone (page_is_complete driver).
Proof.
  intros w. unfold page_is_complete, mbind, M_bind, execute_script.
  destruct (on_execute_script driver w ready_state_script) as [d [v|e]];
    simpl; lia.
Qed.

Definition wait_until_page_ready (driver : Browser) : M () :=
  WebDriverWait_until 30000 (page_is_complete driver)
    (page_is_complete_monotone driver) ;;
  mret ().

(** ** [try] / [except] / [finally] with a [return] in the [finally]

    [body] is the [try] suite.  [except e] is the handler of the first
    [except] clause that matches [e], if any.  [final] is the [finally]
    suite: it runs in every case and sees what the [try]/[except] part
    left behind, a value or an exception still in flight.  Because the
    suite ends in [return], its value is the value of the function and an
    exception still in flight is discarded. *)
Definition try_except_finally_return {A B} (body : M A)
    (except : Exn -> option (M A)) (final : Outcome A -> M B) : M B :=
  fun w =>
    let '(w1, r1) := body w in
    let '(w2, r2) :=
      match r1 with
      | Return a => (w1, Return a)
      | Raise e =>
          match except e with
          | Some handler => handler w1
          | None => (w1, Raise e)
          end
      end in
    final r2 w2.

(** ** Result records *)

(** The local variables of the two scraping functions. *)
Record Locals : Type := mkLocals {
  is_error : bool;
  scraped_elements : PyVal;
  exception_raised : PyVal
}.

(** Lines 108-111 and 175-178: [is_error = True], the other two [None]. *)
Definition initial_locals : Locals := mkLocals true PyNone PyNone.

(** The locals the [finally] suite reads: those the [try] or a handler
    assigned, or the initial ones when an exception is still in flight. *)
Definition locals_of (r : Outcome Locals) : Locals :=
  match r with
  | Return l => l
  | Raise _ => initial_locals
  end.

Definition provide_scraping_result_dict (web_url : string)
    (is_gambling_site is_error : bool) (scraped_elements : PyVal)
    (scraping_initiation_time : N) (exception_raised : PyVal)
    : gmap string PyVal :=
  list_to_map [
    ("web_url", PyStr web_url);
    ("is_gambling_site", PyBool is_gambling_site);
    ("is_error", PyBool is_error);
    ("scraped_elements", scraped_elements);
    ("scraping_initiation_time", PyDatetime scraping_initiation_time);
    ("exception_raised", exception_raised)
  ].

(** ** [get_scraping_result] *)

Definition scroll_to_bottom_script : string :=
  "window.scrollTo(0, document.body.scrollHeight);".

(** [if(is_vertical_scrollbar_present(driver)): driver.execute_script(...)] *)
Definition scroll_if_needed (driver : Browser) : M () :=
  present ← is_vertical_scrollbar_present driver;
  if present : bool
  then (execute_script driver scroll_to_bottom_script ;; mret ()) : M ()
  else mret ().

(** Lines 121-141, the [try] suite.  Its two assignments are its last
    statements and cannot raise, so the locals change only when the suite
    completes. *)
Definition scraping_try (driver : Browser) (web_url : string) : M Locals :=
  driver_get driver web_url ;;
  wait_until_page_ready driver ;;
  time_sleep 5000 ;;
  scroll_if_needed driver ;;
  time_sleep 5000 ;;
  source ← page_source driver;
  mret (mkLocals false (PyStr source) PyNone).

(** Lines 142-147: [except TimeoutException] and [except Exception as e].
    An exception that is not an [Exception] matches neither clause. *)
Definition scraping_except (e : Exn) : option (M Locals) :=
  if isinstance e TimeoutException then
    Some (let exception_raised := PyStr "Timeout Exception" in
          print ["Error occurred: "; py_str exception_raised] ;;
          mret (mkLocals true PyNone exception_raised))
  else if isinstance_Exception e then
    Some (let exception_raised := PyExc e in
          print ["Error occurred: " +:+ py_str (PyExc e)] ;;
          mret (mkLocals true PyNone exception_raised))
  else None.

(** Lines 148-160, the [finally] suite. *)
Definition scraping_finally (web_url : string) (is_gambling_site : bool)
    (df_row_count item_position : Z) (r : Outcome Locals)
    : M (gmap string PyVal) :=
  let l := locals_of r in
  print ["[" +:+ pretty item_position +:+ "/" +:+ pretty df_row_count
             +:+ "] scraping finished on " +:+ web_url] ;;
  print [tab +:+ "is error: "; str_bool (is_error l)] ;;
  print [tab +:+ "exception: "; py_str (exception_raised l)] ;;
  now ← dt_now;
  mret (provide_scraping_result_dict web_url is_gambling_site (is_error l)
          (scraped_elements l) now (exception_raised l)).

Definition get_scraping_result (web_url : string) (is_gambling_site : bool)
    (driver : Browser) (df_row_count item_position : Z)
    : M (gmap string PyVal) :=
  try_except_finally_return
    (scraping_try driver web_url)
    scraping_except
    (scraping_finally web_url is_gambling_site df_row_count item_position).

(** ** [get_crawling_scraping_result] *)

(** Lines 188-207: the same suite without the navigation. *)
Definition crawling_try (driver : Browser) : M Locals :=
  wait_until_page_ready driver ;;
  time_sleep 5000 ;;
  scroll_if_needed driver ;;
  time_sleep 5000 ;;
  source ← page_source driver;
  mret (mkLocals false (PyStr source) PyNone).

(** Lines 208-216: [except TimeoutException], [except
    NoSuchElementException] and [except Exception as e].  An exception
    that is not an [Exception] matches none of them. *)
Definition crawling_except (e : Exn) : option (M Locals) :=
  if isinstance e TimeoutException then
    Some (let exception_raised := PyStr "Timeout Exception" in
          print ["Error occurred: "; py_str exception_raised] ;;
          mret (mkLocals true PyNone exception_raised))
  else if isinstance e NoSuchElementException then
    Some (let exception_raised := PyStr "The web is not loaded" in
          print ["Error occurred: "; py_str exception_raised] ;;
          mret (mkLocals true PyNone exception_raised))
  else if isinstance_Exception e then
    Some (let exception_raised := PyExc e in
          print ["Error occurred: " +:+ py_str (PyExc e)] ;;
          mret (mkLocals true PyNone exception_raised))
  else None.

(** Lines 217-228, the [finally] suite with its own dictionary literal. *)
Definition crawling_finally (web_url : string) (r : Outcome Locals)
    : M (gmap string PyVal) :=
  let l := locals_of r in
  print ["scraping finished on " +:+ web_url] ;;
  print [tab +:+ "is error: "; str_bool (is_error l)] ;;
  print [tab +:+ "exception: "; py_str (exception_raised l)] ;;
  now ← dt_now;
  mret (list_to_map [
    ("web_url", PyStr web_url);
    ("is_error", PyBool (is_error l));
    ("scraped_elements", scraped_elements l);
    ("scraping_initiation_time", PyDatetime now);
    ("exception_raised", exception_raised l)
  ] : gmap string PyVal).

Definition get_crawling_scraping_result (web_url : string) (driver : Browser)
    : M (gmap string PyVal) :=
  try_except_finally_return
    (crawling_try driver)
    crawling_except
    (crawling_finally web_url).

(** * The session bootstrap: [get_webdriver]

    [get_webdriver] talks to a browser that is not running yet, and it
    uses other commands than the scraping functions: the launch, the list
    of window handles, the switch between windows and the closing of a
    window.  Its world is therefore a history of its own, the desk, with
    the same clock in milliseconds.  The environment (the file system,
    Chrome and what its extension does to the windows) is again an
    arbitrary behaviour, a function of the history. *)

Inductive DeskEvent : Type :=
  | DLaunch (arguments extensions : list string)
  | DWindowHandles
  | DSwitchTo (handle : string)
  | DClose
  | DSleep (ms : N).

#[global] Instance DeskEvent_eq_dec : EqDecision DeskEvent.
Proof. solve_decision. Defined.

Record Desk : Type := mkDesk {
  desk_clock : N;
  desk_trace : list DeskEvent
}.

Record Chrome : Type := mkChrome {
  (* [os.path.abspath] *)
  os_path_abspath : string -> string;
  (* [options.add_extension(path)]: it looks the file up *)
  on_add_extension : string -> Outcome ();
  (* [webdriver.Chrome(options=options)] *)
  on_launch : Desk -> list string -> list string -> N * Outcome ();
  (* [driver.window_handles] *)
  on_window_handles : Desk -> N * Outcome (list string);
  (* [driver.switch_to.window(handle)] *)
  on_switch_to_window : Desk -> string -> N * Outcome ();
  (* [driver.close()] *)
  on_close : Desk -> N * Outcome ()
}.

Definition B (A : Type) : Type := Desk -> Desk * Outcome A.

#[global] Instance B_ret : MRet B := fun A a w => (w, Return a).
#[global] Instance B_bind : MBind B := fun A B' f m w =>
  match m w with
  | (w', Return a) => f a w'
  | (w', Raise e) => (w', Raise e)
  end.

Definition desk_issue (ev : DeskEvent) (d : N) (w : Desk) : Desk :=
  mkDesk (desk_clock w + d) (desk_trace w ++ [ev]).

Definition desk_lift {A} (o : Outcome A) : B A := fun w => (w, o).

Definition launch (chrome : Chrome) (arguments extensions : list string) : B () :=
  fun w => let '(d, r) := on_launch chrome w arguments extensions in
           (desk_issue (DLaunch arguments extensions) d w, r).

Definition window_handles (chrome : Chrome) : B (list string) :=
  fun w => let '(d, r) := on_window_handles chrome w in
           (desk_issue DWindowHandles d w, r).

Definition switch_to_window (chrome : Chrome) (handle : string) : B () :=
  fun w => let '(d, r) := on_switch_to_window chrome w handle in
           (desk_issue (DSwitchTo handle) d w, r).

Definition close (chrome : Chrome) : B () :=
  fun w => let '(d, r) := on_close chrome w in (desk_issue DClose d w, r).

Definition desk_sleep (ms : N) : B () :=
  fun w => (desk_issue (DSleep ms) ms w, Return ()).

(** [handles[i]] on a Python list: out of range raises [IndexError]. *)
Definition py_getitem (handles : list string) (i : nat) : Outcome string :=
  match handles !! i with
  | Some handle => Return handle
  | None => Raise (mkExn (OtherException "IndexError") "list index out of range")
  end.

(** [EC.new_window_is_opened(current_handles)]: Selenium's predicate
    [len(driver.window_handles) > len(current_handles)]. *)
Definition new_window_is_opened (chrome : Chrome) (current_handles : list string)
    : B bool :=
  handles ← window_handles chrome;
  mret (Nat.ltb (length current_handles) (length handles)).

(** The polling wait on the desk: the loop of [until] once more, over
    this history. *)
Definition desk_attempt (method : B bool) (w : Desk) : Desk * Poll :=
  match method w with
  | (w1, Return true) => (w1, Found)
  | (w1, Return false) => (w1, Again)
  | (w1, Raise e) =>
      if isinstance e NoSuchElementException then (w1, Again) else (w1, Failed e)
  end.

Definition DeskMonotone {A} (m : B A) : Prop :=
  forall w, desk_clock w <= desk_clock (m w).1.

Lemma desk_attempt_clock (method : B bool) (Hm : DeskMonotone method) (w : Desk) :
  desk_clock w <= desk_clock (desk_attempt method w).1.
Proof.
  unfold desk_attempt. specialize (Hm w).
  destruct (method w) as [w1 [[|]|e]]; simpl in *; try done.
  destruct (isinstance e NoSuchElementException); done.
Qed.

Equations? desk_until_loop (method : B bool) (Hm : DeskMonotone method)
    (end_time : N) (w : Desk) : Desk * Outcome bool
    by wf (N.to_nat (end_time + 501 - desk_clock w)) lt :=
  desk_until_loop method Hm end_time w with inspect (desk_attempt method w) := {
    | exist _ (w1, Found) _ => (w1, Return true)
    | exist _ (w1, Failed e) _ => (w1, Raise e)
    | exist _ (w1, Again) Ha with inspect (N.ltb end_time (desk_clock w1)) := {
        | exist _ true _ => (w1, Raise timeout_exception)
        | exist _ false Hc =>
            desk_until_loop method Hm end_time (desk_sleep POLL_FREQUENCY w1).1 } }.
Proof.
  pose proof (desk_attempt_clock method Hm w) as Hle. rewrite Ha in Hle.
  apply N.ltb_ge in Hc. simpl in *. unfold POLL_FREQUENCY in *. lia.
Qed.

Definition desk_WebDriverWait_until (timeout : N) (method : B bool)
    (Hm : DeskMonotone method) : B bool :=
  fun w => desk_until_loop method Hm (desk_clock w + timeout) w.

Lemma new_window_is_opened_monotone chrome current_handles :
  DeskMonotone (new_window_is_opened chrome current_handles).
Proof.
  intros w. unfold new_window_is_opened, mbind, B_bind, window_handles.
  destruct (on_window_handles chrome w) as [d [v|e]]; simpl; lia.
Qed.

(** Lines 238-246: the seven flags; the headless flag is commented out. *)
Definition chrome_arguments : list string :=
  [ "--disable-gpu"; "--mute-audio"; "--ignore-certificate-errors";
    "--allow-insecure-localhost"; "--ignore-ssl-errors"; "--log-level=3";
    "--disable-web-security" ].

(** Lines 238-256: the options, the launch, and the wait of at most 120
    seconds for one more window than there are right after the launch. *)
Definition start_chrome (chrome : Chrome) : B () :=
  let extension := os_path_abspath chrome "adblock.crx" in
  desk_lift (on_add_extension chrome extension) ;;
  launch chrome chrome_arguments [extension] ;;
  current_handles ← window_handles chrome;
  desk_WebDriverWait_until 120000 (new_window_is_opened chrome current_handles)
    (new_window_is_opened_monotone chrome current_handles) ;;
  mret ().

(** Lines 266-270: close the window at index 1, go back to index 0. *)
Definition close_welcome_tab (chrome : Chrome) : B () :=
  handles ← window_handles chrome;
  welcome ← desk_lift (py_getitem handles 1);
  switch_to_window chrome welcome ;;
  close chrome ;;
  handles ← window_handles chrome;
  first ← desk_lift (py_getitem handles 0);
  switch_to_window chrome first.

Definition get_webdriver (chrome : Chrome) : B () :=
  start_chrome chrome ;;
  desk_sleep 3000 ;;
  close_welcome_tab chrome.

(** * The logger: [setup_logger]

    [setup_logger] is one call of [logging.basicConfig].  What matters to
    a reader of the log is what that configuration makes of a record, so
    the two standard-library formatters it selects are modelled as far as
    the helper uses them: [time.strftime] for the directives year, month,
    day, hour, minute and second, and the brace style of [str.format] for
    plain field names.  Anything else in a format is outside the model
    and yields [None]. *)

(** [time.struct_time], the fields the directives read. *)
Record struct_time : Type := mk_struct_time {
  tm_year : N; tm_mon : N; tm_mday : N;
  tm_hour : N; tm_min : N; tm_sec : N
}.

(** A number as two digits. *)
Definition two_digits (n : N) : string :=
  if N.ltb n 10 then "0" +:+ pretty n else pretty n.

(** One directive of [strftime]. *)
Definition strftime_directive (c : Ascii.ascii) (t : struct_time)
    : option string :=
  if bool_decide (c = "Y"%char) then Some (pretty (tm_year t))
  else if bool_decide (c = "m"%char) then Some (two_digits (tm_mon t))
  else if bool_decide (c = "d"%char) then Some (two_digits (tm_mday t))
  else if bool_decide (c = "H"%char) then Some (two_digits (tm_hour t))
  else if bool_decide (c = "M"%char) then Some (two_digits (tm_min t))
  else if bool_decide (c = "S"%char) then Some (two_digits (tm_sec t))
  else if bool_decide (c = "%"%char) then Some "%"
  else None.

(** [time.strftime(format, t)] *)
Fixpoint strftime (format : string) (t : struct_time) : option string :=
  match format with
  | EmptyString => Some ""
  | String c rest =>
      if bool_decide (c = "%"%char) then
        match rest with
        | EmptyString => None
        | String directive rest' =>
            shown ← strftime_directive directive t;
            tail ← strftime rest' t;
            Some (shown +:+ tail)
        end
      else
        tail ← strftime rest t;
        Some (String c tail)
  end.

(** [str.format] with keyword fields, for a format with plain [{name}] fields:
    [field] is the name being read, if the scan is inside braces. *)
Fixpoint brace_format (format : string) (field : option string)
    (fields : gmap string string) : option string :=
  match format, field with
  | EmptyString, None => Some ""
  | EmptyString, Some _ => None
  | String c rest, None =>
      if bool_decide (c = "{"%char) then brace_format rest (Some "") fields
      else if bool_decide (c = "}"%char) then None
      else tail ← brace_format rest None fields; Some (String c tail)
  | String c rest, Some name =>
      if bool_decide (c = "}"%char) then
        value ← fields !! name;
        tail ← brace_format rest None fields;
        Some (value +:+ tail)
      else brace_format rest (Some (name +:+ String c "")) fields
  end.

(** A [logging.Formatter] with its format and its date format. *)
Record Formatter : Type := mkFormatter {
  formatter_fmt : string;
  formatter_datefmt : string
}.

(** A [LogRecord]: where and when it was made, and its message. *)
Record LogRecord : Type := mkLogRecord {
  levelno : N;
  created : struct_time;
  filename : string;
  funcName : string;
  message : string
}.

(** [Formatter.format(record)]: [asctime] is [strftime] of the date
    format, and the line is the format filled with the record. *)
Definition formatter_format (f : Formatter) (r : LogRecord) : option string :=
  asctime ← strftime (formatter_datefmt f) (created r);
  brace_format (formatter_fmt f) None
    (list_to_map [ ("asctime", asctime); ("filename", filename r);
                   ("funcName", funcName r); ("message", message r) ]).

(** The root logger: its level and the formatters of its handlers. *)
Record RootLogger : Type := mkRootLogger {
  root_level : N;
  root_handlers : list Formatter
}.

Definition DEBUG : N := 10.
Definition WARNING : N := 30.

(** A root logger nobody has configured. *)
Definition fresh_root : RootLogger := mkRootLogger WARNING [].

(** [logging.basicConfig(level=..., format=..., style="{", datefmt=...)]:
    it does nothing at all when the root logger already has a handler. *)
Definition basicConfig (level : N) (format datefmt : string)
    (root : RootLogger) : RootLogger :=
  match root_handlers root with
  | [] => mkRootLogger level [mkFormatter format datefmt]
  | _ :: _ => root
  end.

Definition setup_logger (root : RootLogger) : RootLogger :=
  basicConfig DEBUG
    "{asctime} - ({filename}: {funcName}) -> {message}"
    "%Y-%m-%d %H:%m:%S"
    root.

(** The lines a record leaves in the log: one per handler, if the record
    is at or above the level of the root logger. *)
Definition emit (root : RootLogger) (r : LogRecord) : list (option string) :=
  if N.leb (root_level root) (levelno r)
  then map (fun f => formatter_format f r) (root_handlers root)
  else [].

(** * Vocabulary of the properties *)


(** ** The polls of a wait

    [poll_world method w k] is the world in which the poll number [k]
    (counted from 0) of a wait started in [w] begins, as long as the polls
    before it said "not yet": each of them is followed by one sleep of the
    poll interval. *)
Definition next_poll (method : M bool) (w : World) : World :=
  (time_sleep POLL_FREQUENCY (attempt method w).1).1.

Fixpoint poll_world (method : M bool) (w : World) (k : nat) : World :=
  match k with
  | O => w
  | S k' => poll_world method (next_poll method w) k'
  end.

(** How often a script was executed in a history. *)
Definition count_script (script : string) (evs : list Event) : nat :=
  length (filter (fun ev => ev = EvExecuteScript script) evs).

(** The field [key] of the record a call returned, if it returned one. *)
Definition field (r : World * Outcome (gmap string PyVal)) (key : string)
    : option PyVal :=
  match r.2 with
  | Return d => d !! key
  | Raise _ => None
  end.

(** What a statement adds to the history.

    [Emits P m]: running [m] appends events to the history, all of them
    satisfying [P]; it never rewrites the past and never turns the clock
    back. *)
Definition Emits {A} (P : Event -> Prop) (m : M A) : Prop :=
  forall w, exists evs,
    trace (m w).1 = trace w ++ evs /\ Forall P evs /\ clock w <= clock (m w).1.

Definition any_event (ev : Event) : Prop := True.

(** A statement that prints nothing. *)
Definition Silent {A} (m : M A) : Prop :=
  forall w, stdout (m w).1 = stdout w.

(** The events of the crawling suite: everything but a navigation. *)
Definition crawling_events : list Event :=
  [ EvExecuteScript ready_state_script; EvSleep POLL_FREQUENCY; EvSleep 5000;
    EvExecuteScript scroll_height_script; EvExecuteScript viewport_height_script;
    EvExecuteScript scroll_to_bottom_script; EvPageSource ].

(** What the [except] clauses of [get_scraping_result] leave in the
    locals. *)
Definition scraping_error_field (e : Exn) : PyVal :=
  if isinstance e TimeoutException then PyStr "Timeout Exception"
  else if isinstance_Exception e then PyExc e
  else PyNone.

Definition scraping_handled (r : Outcome Locals) : Locals :=
  match r with
  | Return l => l
  | Raise e => mkLocals true PyNone (scraping_error_field e)
  end.

(** ** Sample browser sessions *)

(** A page that is complete at once, 800 high in a viewport of 800. *)
Definition instant_browser : Browser := {|
  on_get := fun _ _ => (120, Return ());
  on_execute_script := fun _ script =>
    if bool_decide (script = ready_state_script) then (3, Return (JsStr "complete"))
    else if bool_decide (script = scroll_height_script) then (2, Return (JsInt 800))
    else if bool_decide (script = viewport_height_script) then (2, Return (JsInt 800))
    else (4, Return JsNull);
  on_page_source := fun _ => (10, Return "<html>...</html>")
|}.

(** The same page, 2000 high. *)
Definition tall_browser : Browser := {|
  on_get := fun _ _ => (120, Return ());
  on_execute_script := fun _ script =>
    if bool_decide (script = ready_state_script) then (3, Return (JsStr "complete"))
    else if bool_decide (script = scroll_height_script) then (2, Return (JsInt 2000))
    else if bool_decide (script = viewport_height_script) then (2, Return (JsInt 800))
    else (4, Return JsNull);
  on_page_source := fun _ => (10, Return "<html>...</html>")
|}.

(** A page that stays in the "loading" state for ever. *)
Definition never_ready_browser : Browser := {|
  on_get := fun _ _ => (120, Return ());
  on_execute_script := fun _ script =>
    if bool_decide (script = ready_state_script) then (3, Return (JsStr "loading"))
    else (4, Return JsNull);
  on_page_source := fun _ => (10, Return "<html>...</html>")
|}.



(** A session interrupted from the keyboard while it navigates. *)
Definition interrupted_browser : Browser := {|
  on_get := fun _ _ => (700, Raise (mkExn KeyboardInterrupt ""));
  on_execute_script := fun _ _ => (1, Return JsNull);
  on_page_source := fun _ => (10, Return "")
|}.

(** A session whose height queries fail with a missing element. *)
Definition no_element_browser : Browser := {|
  on_get := fun _ _ => (120, Return ());
  on_execute_script := fun _ script =>
    if bool_decide (script = ready_state_script) then (3, Return (JsStr "complete"))
    else (2, Raise (mkExn NoSuchElementException "no such element"));
  on_page_source := fun _ => (10, Return "<html>...</html>")
|}.

(** A session whose navigation fails: the host cannot be reached. *)
Definition unreachable_browser : Browser := {|
  on_get := fun _ _ =>
    (50, Raise (mkExn WebDriverException "net::ERR_NAME_NOT_RESOLVED"));
  on_execute_script := fun _ _ => (1, Return JsNull);
  on_page_source := fun _ => (10, Return "")
|}.

(** A page that never becomes ready and answers in no time. *)
Definition frozen_browser : Browser := {|
  on_get := fun _ _ => (0, Return ());
  on_execute_script := fun _ _ => (0, Return (JsStr "interactive"));
  on_page_source := fun _ => (0, Return "")
|}.

(** A session that loses its browser: the first poll of the ready state
    finds no document yet, the later ones find the browser gone. *)
Definition flaky_browser : Browser := {|
  on_get := fun _ _ => (120, Return ());
  on_execute_script := fun w script =>
    if N.ltb (clock w) 400
    then (3, Raise (mkExn NoSuchElementException "no such element"))
    else (3, Raise (mkExn WebDriverException "chrome not reachable"));
  on_page_source := fun _ => (10, Return "")
|}.

(** A page whose document element reports no heights. *)
Definition null_height_browser : Browser := {|
  on_get := fun _ _ => (120, Return ());
  on_execute_script := fun _ script =>
    if bool_decide (script = ready_state_script) then (3, Return (JsStr "complete"))
    else (2, Return JsNull);
  on_page_source := fun _ => (10, Return "<html></html>")
|}.

Definition start : World := mkWorld 0 [] [].

(** ** Sample Chrome sessions *)

(** The extension opens its welcome tab 1.5 seconds after the clock
    started; closing a window leaves the main one. *)
Definition welcoming_chrome : Chrome := {|
  os_path_abspath := fun path => "/srv/scraper/" +:+ path;
  on_add_extension := fun _ => Return ();
  on_launch := fun _ _ _ => (900, Return ());
  on_window_handles := fun w =>
    (5, Return (if bool_decide (DClose ∈ desk_trace w) then ["main"]
                else if N.ltb (desk_clock w) 1500 then ["main"]
                else ["main"; "welcome"]));
  on_switch_to_window := fun _ _ => (4, Return ());
  on_close := fun _ => (6, Return ())
|}.

(** No welcome tab ever opens. *)
Definition quiet_chrome : Chrome := {|
  os_path_abspath := fun path => "/srv/scraper/" +:+ path;
  on_add_extension := fun _ => Return ();
  on_launch := fun _ _ _ => (900, Return ());
  on_window_handles := fun _ => (5, Return ["main"]);
  on_switch_to_window := fun _ _ => (4, Return ());
  on_close := fun _ => (6, Return ())
|}.

(** The welcome tab opens and is gone again before the pause of 3
    seconds is over. *)
Definition fleeting_chrome : Chrome := {|
  os_path_abspath := fun path => "/srv/scraper/" +:+ path;
  on_add_extension := fun _ => Return ();
  on_launch := fun _ _ _ => (900, Return ());
  on_window_handles := fun w =>
    (5, Return (if bool_decide (DSleep 3000 ∈ desk_trace w) then ["main"]
                else if N.ltb (desk_clock w) 1500 then ["main"]
                else ["main"; "welcome"]));
  on_switch_to_window := fun _ _ => (4, Return ());
  on_close := fun _ => (6, Return ())
|}.

Definition desk_start : Desk := mkDesk 0 [].




(** * Properties *)

(** ** The statement monad *)

Lemma bind_unfold {A B} (m : M A) (f : A -> M B) (w : World) :
  (m ≫= f) w =
  match m w with
  | (w', Return a) => f a w'
  | (w', Raise e) => (w', Raise e)
  end.
Proof. reflexivity. Qed.

Lemma bind_return_inv {A B} (m : M A) (f : A -> M B) (w w' : World) (b : B) :
  (m ≫= f) w = (w', Return b) ->
  exists w1 a, m w = (w1, Return a) /\ f a w1 = (w', Return b).
Proof.
  rewrite bind_unfold. destruct (m w) as [w1 [a|e]]; [|done].
  intros H. by exists w1, a.
Qed.

(** ** What a statement adds to the history *)

Section history.
Context (P : Event -> Prop).

Lemma Emits_ret {A} (a : A) : Emits P (mret a).
Proof.
  intros w. exists []. simpl. rewrite app_nil_r.
  split_and!; [done|constructor|lia].
Qed.

Lemma Emits_lift {A} (o : Outcome A) : Emits P (lift o).
Proof.
  intros w. exists []. simpl. rewrite app_nil_r.
  split_and!; [done|constructor|lia].
Qed.

Lemma Emits_bind {A B} (m : M A) (f : A -> M B) :
  Emits P m -> (forall a, Emits P (f a)) -> Emits P (m ≫= f).
Proof.
  intros Hm Hf w. rewrite bind_unfold.
  destruct (Hm w) as (evs & Ht & HP & Hc).
  destruct (m w) as [w1 [a|e]]; simpl in *.
  - destruct (Hf a w1) as (evs' & Ht' & HP' & Hc').
    exists (evs ++ evs'). rewrite Ht', Ht, app_assoc.
    split_and!; [done|by apply Forall_app|lia].
  - by exists evs.
Qed.

Lemma Emits_issue {A} (ev : Event) (f : World -> N * Outcome A) :
  P ev -> Emits P (fun w => let '(d, r) := f w in (issue ev d w, r)).
Proof.
  intros HP w. exists [ev]. destruct (f w) as [d r]. simpl.
  split_and!; [done|by repeat constructor|lia].
Qed.

Lemma Emits_driver_get driver url :
  P (EvGet url) -> Emits P (driver_get driver url).
Proof.
  intros HP. by apply (Emits_issue (EvGet url) (fun w => on_get driver w url)).
Qed.

Lemma Emits_execute_script driver script :
  P (EvExecuteScript script) -> Emits P (execute_script driver script).
Proof.
  intros HP.
  by apply (Emits_issue _ (fun w => on_execute_script driver w script)).
Qed.

Lemma Emits_page_source driver :
  P EvPageSource -> Emits P (page_source driver).
Proof. intros HP. by apply (Emits_issue _ (on_page_source driver)). Qed.

Lemma Emits_time_sleep ms :
  P (EvSleep ms) -> Emits P (time_sleep ms).
Proof.
  intros HP w. exists [EvSleep ms]. simpl.
  split_and!; [done|by repeat constructor|lia].
Qed.

Lemma Emits_attempt (method : M bool) (w : World) :
  Emits P method ->
  exists evs, trace (attempt method w).1 = trace w ++ evs /\ Forall P evs /\
              clock w <= clock (attempt method w).1.
Proof.
  intros Hm. destruct (Hm w) as (evs & Ht & HP & Hc). exists evs.
  unfold attempt. destruct (method w) as [w1 [[|]|e]]; simpl in *; try done.
  by destruct (isinstance e NoSuchElementException).
Qed.

(** The wait adds what its polls add, and sleeps. *)
Lemma until_loop_emits (method : M bool) Hm end_time w :
  Emits P method -> P (EvSleep POLL_FREQUENCY) ->
  exists evs,
    trace (until_loop method Hm end_time w).1 = trace w ++ evs /\
    Forall P evs /\
    clock w <= clock (until_loop method Hm end_time w).1.
Proof.
  intros HE HS. funelim (until_loop method Hm end_time w).
  all: try clear Heqcall.
  all: destruct (Emits_attempt method w HE) as (evs & Ht & HP & Hk).
  all: match goal with
       | Ha : attempt _ _ = _ |- _ => rewrite Ha in Ht, Hk; simpl in Ht, Hk
       end.
  - by exists evs.
  - by exists evs.
  - by exists evs.
  - match goal with
    | IH : Emits P _ -> _ |- _ =>
        destruct (IH HE HS) as (evs' & Ht' & HP' & Hk')
    end.
    exists (evs ++ [EvSleep POLL_FREQUENCY] ++ evs').
    rewrite Ht'. simpl in *. rewrite Ht. rewrite <- !app_assoc. simpl.
    split_and!; [done| |lia].
    apply Forall_app. split; [done|]. by constructor.
Qed.

Lemma Emits_wait_until_page_ready driver :
  P (EvExecuteScript ready_state_script) -> P (EvSleep POLL_FREQUENCY) ->
  Emits P (wait_until_page_ready driver).
Proof.
  intros Hq Hs. unfold wait_until_page_ready.
  apply Emits_bind; [|intros; apply Emits_ret].
  intros w. unfold WebDriverWait_until.
  apply until_loop_emits; [|done].
  unfold page_is_complete. apply Emits_bind; [|intros; apply Emits_ret].
  by apply Emits_execute_script.
Qed.

Lemma Emits_is_vertical_scrollbar_present driver :
  P (EvExecuteScript scroll_height_script) ->
  P (EvExecuteScript viewport_height_script) ->
  Emits P (is_vertical_scrollbar_present driver).
Proof.
  intros H1 H2. unfold is_vertical_scrollbar_present.
  apply Emits_bind; [by apply Emits_execute_script|intros sh].
  apply Emits_bind; [by apply Emits_execute_script|intros vh].
  apply Emits_lift.
Qed.

Lemma Emits_scroll_if_needed driver :
  P (EvExecuteScript scroll_height_script) ->
  P (EvExecuteScript viewport_height_script) ->
  P (EvExecuteScript scroll_to_bottom_script) ->
  Emits P (scroll_if_needed driver).
Proof.
  intros H1 H2 H3. unfold scroll_if_needed.
  apply Emits_bind; [by apply Emits_is_vertical_scrollbar_present|].
  intros [|]; [|apply Emits_ret].
  apply Emits_bind; [by apply Emits_execute_script|intros; apply Emits_ret].
Qed.

Lemma Emits_scraping_try driver web_url :
  (forall ev, P ev) -> Emits P (scraping_try driver web_url).
Proof.
  intros HP. unfold scraping_try.
  apply Emits_bind; [by apply Emits_driver_get|intros _].
  apply Emits_bind; [by apply Emits_wait_until_page_ready|intros _].
  apply Emits_bind; [by apply Emits_time_sleep|intros _].
  apply Emits_bind; [by apply Emits_scroll_if_needed|intros _].
  apply Emits_bind; [by apply Emits_time_sleep|intros _].
  apply Emits_bind; [by apply Emits_page_source|intros source].
  apply Emits_ret.
Qed.
End history.

Lemma Emits_crawling_try driver :
  Emits (fun ev => ev ∈ crawling_events) (crawling_try driver).
Proof.
  unfold crawling_try.
  apply Emits_bind; [apply Emits_wait_until_page_ready; set_solver|intros _].
  apply Emits_bind; [apply Emits_time_sleep; set_solver|intros _].
  apply Emits_bind; [apply Emits_scroll_if_needed; set_solver|intros _].
  apply Emits_bind; [apply Emits_time_sleep; set_solver|intros _].
  apply Emits_bind; [apply Emits_page_source; set_solver|intros source].
  apply Emits_ret.
Qed.

Lemma clock_mono {A} (m : M A) (w : World) :
  Emits any_event m -> clock w <= clock (m w).1.
Proof. intros Hm. by destruct (Hm w) as (_ & _ & _ & Hc). Qed.

Lemma until_loop_eq (method : M bool) Hm end_time w :
  until_loop method Hm end_time w =
  match attempt method w with
  | (w1, Found) => (w1, Return true)
  | (w1, Failed e) => (w1, Raise e)
  | (w1, Again) =>
      if N.ltb end_time (clock w1)
      then (w1, Raise timeout_exception)
      else until_loop method Hm end_time (time_sleep POLL_FREQUENCY w1).1
  end.
Proof.
  funelim (until_loop method Hm end_time w); try clear Heqcall.
  all: match goal with Ha : attempt _ _ = _ |- _ => rewrite Ha end.
  all: cbv zeta.
  all: try match goal with Hc : N.ltb _ _ = _ |- _ => rewrite Hc end.
  all: reflexivity.
Qed.

(** ** The polling wait *)

Lemma attempt_page_is_complete (driver : Browser) (w : World) :
  attempt (page_is_complete driver) w =
  (issue (EvExecuteScript ready_state_script)
         (on_execute_script driver w ready_state_script).1 w,
   match (on_execute_script driver w ready_state_script).2 with
   | Return state => if py_eq_str state "complete" then Found else Again
   | Raise e => if isinstance e NoSuchElementException then Again else Failed e
   end).
Proof.
  unfold attempt, page_is_complete. rewrite bind_unfold. unfold execute_script.
  destruct (on_execute_script driver w ready_state_script) as [d [state|e]]; simpl.
  - by destruct (py_eq_str state "complete").
  - by destruct (isinstance e NoSuchElementException).
Qed.

Lemma poll_world_succ (method : M bool) (k : nat) :
  forall w, poll_world method w (S k) = next_poll method (poll_world method w k).
Proof.
  induction k as [|k IH]; intros w; [done|].
  change (poll_world method w (S (S k)))
    with (poll_world method (next_poll method w) (S k)).
  by rewrite IH.
Qed.

Lemma next_poll_clock (method : M bool) (w : World) :
  clock (next_poll method w) = clock (attempt method w).1 + POLL_FREQUENCY.
Proof. reflexivity. Qed.

(** The loop reaches the poll number [k] when every poll before it said
    "not yet" and ended within the deadline. *)
Lemma until_loop_reaches (method : M bool) Hm (end_time : N) (k : nat) :
  forall w,
    (forall j, (j < k)%nat ->
       (attempt method (poll_world method w j)).2 = Again /\
       clock (attempt method (poll_world method w j)).1 <= end_time) ->
    until_loop method Hm end_time w
    = until_loop method Hm end_time (poll_world method w k).
Proof.
  induction k as [|k IH]; intros w Hbefore; [done|].
  rewrite until_loop_eq.
  destruct (Hbefore 0%nat) as [Hagain Hclock]; [lia|].
  change (poll_world method w 0) with w in Hagain, Hclock.
  assert (Hnext : next_poll method w
                  = (time_sleep POLL_FREQUENCY (attempt method w).1).1)
    by reflexivity.
  destruct (attempt method w) as [w1 p] eqn:Ha. simpl in Hagain, Hclock.
  subst p. apply N.ltb_ge in Hclock. rewrite Hclock.
  cbn [fst] in Hnext. rewrite <- Hnext.
  change (poll_world method w (S k))
    with (poll_world method (next_poll method w) k).
  apply IH. intros j Hj. apply (Hbefore (S j)). lia.
Qed.



(** ** [is_vertical_scrollbar_present] *)

(** C5.  Whatever integer heights the browser reports for the two
    queries, [is_vertical_scrollbar_present] returns [True] exactly when
    the scroll height is strictly greater than the viewport height (so
    equal heights give [False]); and it does nothing to the page: the two
    height queries are the only commands it issues, and it prints
    nothing. *)
Theorem is_vertical_scrollbar_present_iff (driver : Browser) (w : World)
    (d1 d2 : N) (scroll_height viewport_height : Z) :
  on_execute_script driver w scroll_height_script
    = (d1, Return (JsInt scroll_height)) ->
  on_execute_script driver (issue (EvExecuteScript scroll_height_script) d1 w)
      viewport_height_script
    = (d2, Return (JsInt viewport_height)) ->
  exists w' present,
    is_vertical_scrollbar_present driver w = (w', Return present) /\
    (present = true <-> (scroll_height > viewport_height)%Z) /\
    (scroll_height = viewport_height -> present = false) /\
    trace w' = trace w ++ [EvExecuteScript scroll_height_script;
                           EvExecuteScript viewport_height_script] /\
    stdout w' = stdout w.
Proof.
  intros H1 H2. unfold is_vertical_scrollbar_present.
  rewrite bind_unfold. unfold execute_script at 1. rewrite H1.
  rewrite bind_unfold. unfold execute_script at 1. rewrite H2.
  eexists _, _. split; [reflexivity|]. simpl.
  split_and!.
  - rewrite Z.ltb_lt. lia.
  - intros ->. apply Z.ltb_irrefl.
  - by rewrite <- app_assoc.
  - done.
Qed.

Lemma is_vertical_scrollbar_present_iff_witness :
  exists w' present,
    is_vertical_scrollbar_present tall_browser start = (w', Return present) /\
    (present = true <-> (2000 > 800)%Z) /\
    (2000%Z = 800%Z -> present = false) /\
    trace w' = trace start ++ [EvExecuteScript scroll_height_script;
                               EvExecuteScript viewport_height_script] /\
    stdout w' = stdout start.
Proof.
  apply (is_vertical_scrollbar_present_iff tall_browser start 2 2 2000 800);
    reflexivity.
Defined.

(** ** [wait_until_page_ready] *)




(** ** Result dictionaries *)

Lemma provide_scraping_result_dict_lookup web_url g err html t exc :
  let d := provide_scraping_result_dict web_url g err html t exc in
  d !! "web_url" = Some (PyStr web_url) /\
  d !! "is_gambling_site" = Some (PyBool g) /\
  d !! "is_error" = Some (PyBool err) /\
  d !! "scraped_elements" = Some html /\
  d !! "scraping_initiation_time" = Some (PyDatetime t) /\
  d !! "exception_raised" = Some exc.
Proof. cbv zeta. split_and!; reflexivity. Qed.

Lemma get_scraping_result_outcome web_url g driver n i w :
  let w1 := (scraping_try driver web_url w).1 in
  let l := scraping_handled (scraping_try driver web_url w).2 in
  exists w',
    get_scraping_result web_url g driver n i w
      = (w', Return (provide_scraping_result_dict web_url g (is_error l)
                       (scraped_elements l) (clock w1) (exception_raised l))) /\
    clock w' = clock w1 /\ trace w' = trace w1.
Proof.
  cbv zeta. unfold get_scraping_result, try_except_finally_return.
  destruct (scraping_try driver web_url w) as [w1 [l|e]]; simpl.
  - eexists. split; [reflexivity|done].
  - unfold scraping_except, scraping_error_field.
    destruct (isinstance e TimeoutException); simpl;
      [|destruct (isinstance_Exception e); simpl].
    all: eexists; (split; [reflexivity|done]).
Qed.

Lemma count_script_app script evs1 evs2 :
  count_script script (evs1 ++ evs2)
  = (count_script script evs1 + count_script script evs2)%nat.
Proof. unfold count_script. by rewrite filter_app, length_app. Qed.

Lemma count_script_none script evs :
  Forall (fun ev => ev <> EvExecuteScript script) evs ->
  count_script script evs = 0%nat.
Proof.
  unfold count_script. induction 1 as [|ev evs Hev _ IH]; [done|].
  by rewrite filter_cons_False.
Qed.

(** ** The [try] suite of [get_scraping_result], step by step *)

Lemma scroll_if_needed_return driver w w' :
  scroll_if_needed driver w = (w', Return ()) ->
  exists w_checked present,
    is_vertical_scrollbar_present driver w = (w_checked, Return present) /\
    trace w' = trace w_checked
               ++ (if present then [EvExecuteScript scroll_to_bottom_script] else []).
Proof.
  unfold scroll_if_needed. intros H.
  apply bind_return_inv in H as (wc & present & Hp & H).
  exists wc, present. split; [done|]. destruct present.
  - apply bind_return_inv in H as (ws & v & Hs & [= <-]).
    unfold execute_script in Hs.
    destruct (on_execute_script driver wc scroll_to_bottom_script) as [d r].
    by injection Hs as <- _.
  - injection H as <-. by rewrite app_nil_r.
Qed.

Lemma scraping_try_return driver web_url w w1 l :
  scraping_try driver web_url w = (w1, Return l) ->
  exists wa wb wd source,
    driver_get driver web_url w = (wa, Return ()) /\
    wait_until_page_ready driver wa = (wb, Return ()) /\
    scroll_if_needed driver (time_sleep 5000 wb).1 = (wd, Return ()) /\
    page_source driver (time_sleep 5000 wd).1 = (w1, Return source) /\
    l = mkLocals false (PyStr source) PyNone.
Proof.
  unfold scraping_try. intros H.
  apply bind_return_inv in H as (wa & [] & Ha & H).
  apply bind_return_inv in H as (wb & [] & Hb & H).
  apply bind_return_inv in H as (wb' & [] & [= <-] & H).
  apply bind_return_inv in H as (wd & [] & Hd & H).
  apply bind_return_inv in H as (wd' & [] & [= <-] & H).
  apply bind_return_inv in H as (we & source & He & [= <- <-]).
  by exists wa, wb, wd, source.
Qed.

Lemma scraping_try_return_clock driver web_url w w1 l :
  scraping_try driver web_url w = (w1, Return l) ->
  clock w + 10000 <= clock w1.
Proof.
  intros H. apply scraping_try_return in H as (wa & wb & wd & source & Ha & Hb & Hd & He & _).
  pose proof (clock_mono (driver_get driver web_url) w
                ltac:(by apply Emits_driver_get)) as H1.
  pose proof (clock_mono (wait_until_page_ready driver) wa
                ltac:(by apply Emits_wait_until_page_ready)) as H2.
  pose proof (clock_mono (scroll_if_needed driver) (time_sleep 5000 wb).1
                ltac:(by apply Emits_scroll_if_needed)) as H3.
  pose proof (clock_mono (page_source driver) (time_sleep 5000 wd).1
                ltac:(by apply Emits_page_source)) as H4.
  rewrite Ha in H1. rewrite Hb in H2. rewrite Hd in H3. rewrite He in H4.
  simpl in *. lia.
Qed.

(** ** [get_scraping_result]: the two shapes of its record *)

Lemma get_scraping_result_cases web_url g driver n i w :
  exists w' d,
    get_scraping_result web_url g driver n i w = (w', Return d) /\
    clock w' = clock (scraping_try driver web_url w).1 /\
    trace w' = trace (scraping_try driver web_url w).1 /\
    d !! "web_url" = Some (PyStr web_url) /\
    d !! "is_gambling_site" = Some (PyBool g) /\
    d !! "scraping_initiation_time" = Some (PyDatetime (clock w')) /\
    ((exists l source,
        (scraping_try driver web_url w).2 = Return l /\
        d !! "is_error" = Some (PyBool false) /\
        d !! "scraped_elements" = Some (PyStr source) /\
        d !! "exception_raised" = Some PyNone)
     \/
     (exists e,
        (scraping_try driver web_url w).2 = Raise e /\
        d !! "is_error" = Some (PyBool true) /\
        d !! "scraped_elements" = Some PyNone /\
        d !! "exception_raised" = Some (scraping_error_field e))).
Proof.
  destruct (get_scraping_result_outcome web_url g driver n i w)
    as (w' & Hres & Hclock & Htrace).
  eexists w', _. split; [exact Hres|].
  match goal with
  | |- context [provide_scraping_result_dict ?u ?a ?b ?c ?t ?e] =>
      destruct (provide_scraping_result_dict_lookup u a b c t e)
        as (Hu & Hg & Herr & Hhtml & Ht & Hexc)
  end.
  rewrite Hu, Hg, Herr, Hhtml, Ht, Hexc, Hclock.
  split_and!; try done.
  destruct (scraping_try driver web_url w) as [w1 [l|e]] eqn:Htry; simpl.
  - left. apply scraping_try_return in Htry
      as (wa & wb & wd & source & _ & _ & _ & _ & ->).
    by eexists _, source.
  - right. by exists e.
Qed.

Lemma scraping_error_field_caught e :
  isinstance_Exception e = true ->
  scraping_error_field e
  = (if isinstance e TimeoutException then PyStr "Timeout Exception" else PyExc e)
  /\ scraping_error_field e <> PyNone.
Proof.
  intros He. unfold scraping_error_field. rewrite He.
  by destruct (isinstance e TimeoutException).
Qed.

Lemma scraping_error_field_uncaught e :
  isinstance_Exception e = false -> scraping_error_field e = PyNone.
Proof.
  intros He. unfold scraping_error_field, isinstance. rewrite He.
  case_bool_decide as Hclass; [|done].
  unfold isinstance_Exception in He. by rewrite Hclass in He.
Qed.

(** C1, as the code has it.  Every call of [get_scraping_result] returns
    a record whose [is_error] is a boolean; when it is [False],
    [scraped_elements] is a string and [exception_raised] is [None]; when
    it is [True], [scraped_elements] is [None], and [exception_raised] is
    not [None] provided the exception that ended the steps is an
    [Exception].  An exception outside [Exception] matches no [except]
    clause: the [finally] suite still returns the record, with
    [exception_raised] left at [None]. *)
Theorem get_scraping_result_invariant web_url g driver n i w :
  exists w' d,
    get_scraping_result web_url g driver n i w = (w', Return d) /\
    (d !! "is_error" = Some (PyBool false) \/
     d !! "is_error" = Some (PyBool true)) /\
    (d !! "is_error" = Some (PyBool false) ->
       (exists html, d !! "scraped_elements" = Some (PyStr html)) /\
       d !! "exception_raised" = Some PyNone) /\
    (d !! "is_error" = Some (PyBool true) ->
       d !! "scraped_elements" = Some PyNone /\
       exists e,
         (scraping_try driver web_url w).2 = Raise e /\
         (isinstance_Exception e = true ->
            exists err, d !! "exception_raised" = Some err /\ err <> PyNone) /\
         (isinstance_Exception e = false ->
            d !! "exception_raised" = Some PyNone)).
Proof.
  destruct (get_scraping_result_cases web_url g driver n i w)
    as (w' & d & Hres & _ & _ & _ & _ & _ & Hcases).
  exists w', d. split; [done|].
  destruct Hcases as [(l & source & _ & Herr & Hhtml & Hexc)
                     |(e & Htry & Herr & Hhtml & Hexc)].
  - split_and!; [by left| |by rewrite Herr].
    intros _. split; [by exists source|done].
  - split_and!; [by right|by rewrite Herr|].
    intros _. split; [done|]. exists e. split_and!; [done| |].
    + intros He. eexists. split; [exact Hexc|].
      by apply scraping_error_field_caught.
    + intros He. by rewrite Hexc, scraping_error_field_uncaught.
Qed.

(** C1 as the specification words it fails: when the navigation is
    interrupted from the keyboard, the record comes back with
    [is_error = True] and [exception_raised = None]. *)
Lemma interrupted_fetch_has_no_error_field :
  let url := "http://a.example" in
  let result := get_scraping_result url true interrupted_browser 10 1 start in
  (driver_get interrupted_browser url start).2
    = Raise (mkExn KeyboardInterrupt "") /\
  field result "is_error" = Some (PyBool true) /\
  field result "scraped_elements" = Some PyNone /\
  field result "exception_raised" = Some PyNone.
Proof. cbv zeta. split_and!; by vm_compute. Qed.


(** C8.  On the success path and on the error path alike, the record's
    [web_url] is the URL passed in and its [is_gambling_site] is the flag
    passed in. *)
Theorem get_scraping_result_passes_through web_url g driver n i w :
  exists w' d,
    get_scraping_result web_url g driver n i w = (w', Return d) /\
    d !! "web_url" = Some (PyStr web_url) /\
    d !! "is_gambling_site" = Some (PyBool g).
Proof.
  destruct (get_scraping_result_cases web_url g driver n i w)
    as (w' & d & Hres & _ & _ & Hurl & Hg & _).
  by exists w', d.
Qed.

(** C9.  The [scraping_initiation_time] of the record is the clock at the
    end of the call: the clock as it stood when the [try] suite had
    completed or raised, never earlier than the start of the call, and in
    a successful fetch at least the two pauses of 5 seconds later. *)
Theorem scraping_initiation_time_is_completion_time web_url g driver n i w :
  exists w' d,
    get_scraping_result web_url g driver n i w = (w', Return d) /\
    d !! "scraping_initiation_time" = Some (PyDatetime (clock w')) /\
    clock w' = clock (scraping_try driver web_url w).1 /\
    clock w <= clock w' /\
    (d !! "is_error" = Some (PyBool false) -> clock w + 10000 <= clock w').
Proof.
  destruct (get_scraping_result_cases web_url g driver n i w)
    as (w' & d & Hres & Hclock & _ & _ & _ & Htime & Hcases).
  exists w', d. split_and!; try done.
  - rewrite Hclock. apply clock_mono. by apply Emits_scraping_try.
  - destruct Hcases as [(l & source & Htry & _)|(e & _ & Herr & _)].
    + intros _. rewrite Hclock.
      destruct (scraping_try driver web_url w) as [w1 r] eqn:E.
      simpl in Htry. subst r. by apply scraping_try_return_clock in E.
    + by rewrite Herr.
Qed.

(** ** The error field of [get_scraping_result] *)

(** C2, as the code has it.  When the ready-state wait times out, and
    more generally when any step raises a [TimeoutException], the record
    has [is_error = True], [scraped_elements = None] and
    [exception_raised] equal to the string "Timeout Exception"; when a
    step raises any other [Exception], [exception_raised] is that
    exception object itself; an exception outside [Exception] is caught
    by no clause and leaves [exception_raised] at [None]. *)
Theorem get_scraping_result_error_field web_url g driver n i w :
  exists w' d,
    get_scraping_result web_url g driver n i w = (w', Return d) /\
    (forall w0 w1 e,
       driver_get driver web_url w = (w0, Return ()) ->
       wait_until_page_ready driver w0 = (w1, Raise e) ->
       exc_class e = TimeoutException ->
       d !! "is_error" = Some (PyBool true) /\
       d !! "scraped_elements" = Some PyNone /\
       d !! "exception_raised" = Some (PyStr "Timeout Exception")) /\
    (forall e,
       (scraping_try driver web_url w).2 = Raise e ->
       exc_class e = TimeoutException ->
       d !! "is_error" = Some (PyBool true) /\
       d !! "scraped_elements" = Some PyNone /\
       d !! "exception_raised" = Some (PyStr "Timeout Exception")) /\
    (forall e,
       (scraping_try driver web_url w).2 = Raise e ->
       exc_class e <> TimeoutException ->
       isinstance_Exception e = true ->
       d !! "is_error" = Some (PyBool true) /\
       d !! "scraped_elements" = Some PyNone /\
       d !! "exception_raised" = Some (PyExc e)) /\
    (forall e,
       (scraping_try driver web_url w).2 = Raise e ->
       isinstance_Exception e = false ->
       d !! "is_error" = Some (PyBool true) /\
       d !! "scraped_elements" = Some PyNone /\
       d !! "exception_raised" = Some PyNone).
Proof.
  destruct (get_scraping_result_cases web_url g driver n i w)
    as (w' & d & Hres & _ & _ & _ & _ & _ & Hcases).
  exists w', d. split; [done|].
  assert (Hany : forall e,
    (scraping_try driver web_url w).2 = Raise e ->
    d !! "is_error" = Some (PyBool true) /\
    d !! "scraped_elements" = Some PyNone /\
    d !! "exception_raised" = Some (scraping_error_field e)).
  { intros e He.
    destruct Hcases as [(l & source & Htry & _)|(e' & Htry & Hrest)];
      rewrite Htry in He; [done|]. by injection He as <-. }
  assert (Htimeout : forall e, exc_class e = TimeoutException ->
            scraping_error_field e = PyStr "Timeout Exception").
  { intros e Hclass. unfold scraping_error_field, isinstance.
    by rewrite bool_decide_eq_true_2. }
  split_and!.
  - intros w0 w1 e Hget Hwait Hclass.
    destruct (Hany e) as (H1 & H2 & H3).
    { unfold scraping_try. rewrite bind_unfold, Hget, bind_unfold, Hwait. done. }
    split_and!; try done. by rewrite H3, Htimeout.
  - intros e He Hclass. destruct (Hany e He) as (H1 & H2 & H3).
    split_and!; try done. by rewrite H3, Htimeout.
  - intros e He Hclass Hexc. destruct (Hany e He) as (H1 & H2 & H3).
    split_and!; try done. rewrite H3.
    destruct (scraping_error_field_caught e Hexc) as [-> _].
    unfold isinstance. by rewrite bool_decide_eq_false_2.
  - intros e He Hexc. destruct (Hany e He) as (H1 & H2 & H3).
    split_and!; try done. by rewrite H3, scraping_error_field_uncaught.
Qed.

(** C2 as the specification words it fails: on a page that never becomes
    ready the wait times out and the error field is "Timeout Exception",
    not "Timeout". *)
Lemma timeout_error_field_is_not_Timeout :
  let url := "http://slow.example" in
  let loaded := (driver_get never_ready_browser url start).1 in
  let result := get_scraping_result url true never_ready_browser 10 1 start in
  (wait_until_page_ready never_ready_browser loaded).2 = Raise timeout_exception /\
  field result "is_error" = Some (PyBool true) /\
  field result "exception_raised" = Some (PyStr "Timeout Exception") /\
  field result "exception_raised" <> Some (PyStr "Timeout").
Proof. cbv zeta. split_and!; [by vm_compute..|]. vm_compute. discriminate. Qed.

Lemma get_scraping_result_error_field_witness :
  let url := "http://slow.example" in
  let result := get_scraping_result url true never_ready_browser 10 1 start in
  field result "is_error" = Some (PyBool true) /\
  field result "scraped_elements" = Some PyNone /\
  field result "exception_raised" = Some (PyStr "Timeout Exception").
Proof.
  cbv zeta.
  destruct (get_scraping_result_error_field
              "http://slow.example" true never_ready_browser 10 1 start)
    as (w' & d & Hres & Hwait & _ & _ & _).
  unfold field. rewrite Hres. simpl.
  apply (Hwait (driver_get never_ready_browser "http://slow.example" start).1
               (wait_until_page_ready never_ready_browser
                  (driver_get never_ready_browser "http://slow.example" start).1).1
               timeout_exception).
  - reflexivity.
  - vm_compute. reflexivity.
  - reflexivity.
Defined.

(** ** The scroll of a successful fetch *)

Lemma scraping_try_success driver web_url w w_loaded w_checked present
    w_scrolled w_end source :
  (driver_get driver web_url ;; wait_until_page_ready driver ;;
   time_sleep 5000) w = (w_loaded, Return ()) ->
  is_vertical_scrollbar_present driver w_loaded = (w_checked, Return present) ->
  (if present
   then exists v, execute_script driver scroll_to_bottom_script w_checked
                  = (w_scrolled, Return v)
   else w_scrolled = w_checked) ->
  page_source driver (time_sleep 5000 w_scrolled).1 = (w_end, Return source) ->
  scraping_try driver web_url w
    = (w_end, Return (mkLocals false (PyStr source) PyNone)).
Proof.
  intros Hload Hcheck Hscroll Hsource. unfold scraping_try.
  apply bind_return_inv in Hload as (wa & [] & Ha & Hload).
  apply bind_return_inv in Hload as (wb & [] & Hb & [= <-]).
  rewrite bind_unfold, Ha, bind_unfold, Hb, bind_unfold. cbn [time_sleep].
  rewrite bind_unfold. unfold scroll_if_needed at 1.
  rewrite bind_unfold. cbn [time_sleep fst] in Hcheck. rewrite Hcheck.
  destruct present.
  - destruct Hscroll as [v Hv]. rewrite bind_unfold, Hv. cbn [mret M_ret].
    rewrite bind_unfold. cbn [time_sleep]. rewrite bind_unfold.
    cbn [time_sleep fst] in Hsource. by rewrite Hsource.
  - subst w_scrolled. cbn [mret M_ret].
    rewrite bind_unfold. cbn [time_sleep]. rewrite bind_unfold.
    cbn [time_sleep fst] in Hsource. by rewrite Hsource.
Qed.

(** C7.  In a successful fetch the scroll-to-bottom script is executed
    exactly once when [is_vertical_scrollbar_present] answers [True] for
    the loaded page, and not at all when it answers [False]; and in
    either case, once the remaining steps go through, the fetch returns a
    success record with the page source. *)
Theorem scroll_issued_once_iff_scrollbar_present web_url g driver n i w :
  exists w' d,
    get_scraping_result web_url g driver n i w = (w', Return d) /\
    (d !! "is_error" = Some (PyBool false) ->
     exists w_loaded w_checked present,
       (driver_get driver web_url ;; wait_until_page_ready driver ;;
        time_sleep 5000) w = (w_loaded, Return ()) /\
       is_vertical_scrollbar_present driver w_loaded
         = (w_checked, Return present) /\
       count_script scroll_to_bottom_script (trace w')
         = (count_script scroll_to_bottom_script (trace w)
            + if present then 1 else 0)%nat) /\
    (forall w_loaded w_checked present w_scrolled w_end source,
       (driver_get driver web_url ;; wait_until_page_ready driver ;;
        time_sleep 5000) w = (w_loaded, Return ()) ->
       is_vertical_scrollbar_present driver w_loaded
         = (w_checked, Return present) ->
       (if present
        then exists v, execute_script driver scroll_to_bottom_script w_checked
                       = (w_scrolled, Return v)
        else w_scrolled = w_checked) ->
       page_source driver (time_sleep 5000 w_scrolled).1
         = (w_end, Return source) ->
       d !! "is_error" = Some (PyBool false) /\
       d !! "scraped_elements" = Some (PyStr source) /\
       d !! "exception_raised" = Some PyNone).
Proof.
  destruct (get_scraping_result_cases web_url g driver n i w)
    as (w' & d & Hres & _ & Htrace & _ & _ & _ & Hcases).
  exists w', d. split; [done|]. split.
  - intros Hok.
    destruct Hcases as [(l & source & Htry & _)|(e & _ & Herr & _)];
      [|by rewrite Herr in Hok].
    destruct (scraping_try driver web_url w) as [w1 r] eqn:E.
    simpl in Htry, Htrace. subst r.
    apply scraping_try_return in E
      as (wa & wb & wd & source' & Ha & Hb & Hd & He & _).
    apply scroll_if_needed_return in Hd as (wc & present & Hp & Hd).
    exists (time_sleep 5000 wb).1, wc, present. split_and!; [|done|].
    { by rewrite bind_unfold, Ha, bind_unfold, Hb. }
    set (quiet := fun ev => ev <> EvExecuteScript scroll_to_bottom_script).
    assert (Hquiet : forall {A} (m : M A) w0 w0' r0,
              Emits quiet m -> m w0 = (w0', r0) ->
              count_script scroll_to_bottom_script (trace w0')
              = count_script scroll_to_bottom_script (trace w0)).
    { intros A m w0 w0' r0 Hm Hrun. destruct (Hm w0) as (evs & Ht & Hq & _).
      rewrite Hrun in Ht. simpl in Ht.
      rewrite Ht, count_script_app, (count_script_none _ evs Hq). lia. }
    rewrite Htrace.
    rewrite (Hquiet _ (page_source driver) _ _ _
               ltac:(by apply Emits_page_source) He).
    simpl. rewrite Hd, !count_script_app.
    rewrite (Hquiet _ (is_vertical_scrollbar_present driver) _ _ _
               ltac:(by apply Emits_is_vertical_scrollbar_present) Hp).
    simpl. rewrite count_script_app.
    rewrite (Hquiet _ (wait_until_page_ready driver) _ _ _
               ltac:(by apply Emits_wait_until_page_ready) Hb).
    rewrite (Hquiet _ (driver_get driver web_url) _ _ _
               ltac:(by apply Emits_driver_get) Ha).
    destruct present; vm_compute count_script at 2 3 4; simpl; lia.
  - intros w_loaded w_checked present w_scrolled w_end source
           Hload Hcheck Hscroll Hsource.
    pose proof (scraping_try_success _ _ _ _ _ _ _ _ _
                  Hload Hcheck Hscroll Hsource) as Htry.
    destruct (get_scraping_result_outcome web_url g driver n i w)
      as (w'' & Hres' & _).
    rewrite Hres in Hres'. injection Hres' as _ ->.
    rewrite Htry. cbv zeta. simpl. split_and!; reflexivity.
Qed.

Lemma scroll_issued_once_iff_scrollbar_present_witness :
  let url := "http://tall.example" in
  exists w' d,
    get_scraping_result url true tall_browser 10 1 start = (w', Return d) /\
    d !! "is_error" = Some (PyBool false) /\
    exists w_loaded w_checked present,
      (driver_get tall_browser url ;; wait_until_page_ready tall_browser ;;
       time_sleep 5000) start = (w_loaded, Return ()) /\
      is_vertical_scrollbar_present tall_browser w_loaded
        = (w_checked, Return present) /\
      count_script scroll_to_bottom_script (trace w')
        = (count_script scroll_to_bottom_script (trace start)
           + if present then 1 else 0)%nat.
Proof.
  cbv zeta.
  destruct (scroll_issued_once_iff_scrollbar_present
              "http://tall.example" true tall_browser 10 1 start)
    as (w' & d & Hres & Hscroll & _).
  exists w', d. split; [done|].
  assert (Hok : d !! "is_error" = Some (PyBool false)).
  { change (field (w', Return d) "is_error" = Some (PyBool false)).
    rewrite <- Hres. vm_compute. reflexivity. }
  split; [done|]. apply Hscroll, Hok.
Defined.

(** Scenario B: on the page 2000 high in a viewport of 800 the scroll
    script runs once; scenario A: on the page that fits, never. *)
Example scroll_count_scenarios :
  count_script scroll_to_bottom_script
    (trace (get_scraping_result "http://tall.example" true tall_browser 10 1 start).1)
    = 1%nat /\
  count_script scroll_to_bottom_script
    (trace (get_scraping_result "http://fits.example" true instant_browser 10 1 start).1)
    = 0%nat /\
  field (get_scraping_result "http://fits.example" true instant_browser 10 1 start)
    "scraped_elements" = Some (PyStr "<html>...</html>").
Proof. split_and!; vm_compute; reflexivity. Qed.

(** ** [get_crawling_scraping_result] *)

Lemma get_crawling_scraping_result_cases web_url driver w :
  exists w' d,
    get_crawling_scraping_result web_url driver w = (w', Return d) /\
    clock w' = clock (crawling_try driver w).1 /\
    trace w' = trace (crawling_try driver w).1 /\
    dom d = ({[ "web_url"; "is_error"; "scraped_elements";
                "scraping_initiation_time"; "exception_raised" ]} : gset string) /\
    d !! "is_gambling_site" = None /\
    d !! "web_url" = Some (PyStr web_url) /\
    d !! "scraping_initiation_time" = Some (PyDatetime (clock w')) /\
    d !! "is_error"
      = Some (PyBool (match (crawling_try driver w).2 with
                      | Return l => is_error l
                      | Raise _ => true
                      end)) /\
    d !! "exception_raised"
      = Some (match (crawling_try driver w).2 with
              | Return l => exception_raised l
              | Raise e =>
                  if isinstance e TimeoutException then PyStr "Timeout Exception"
                  else if isinstance e NoSuchElementException
                       then PyStr "The web is not loaded"
                       else if isinstance_Exception e then PyExc e
                            else PyNone
              end).
Proof.
  unfold get_crawling_scraping_result, try_except_finally_return.
  destruct (crawling_try driver w) as [w1 [l|e]]; simpl.
  - eexists _, _. split; [reflexivity|]. simpl. split_and!; reflexivity.
  - unfold crawling_except.
    destruct (isinstance e TimeoutException); simpl;
      [|destruct (isinstance e NoSuchElementException); simpl;
        [|destruct (isinstance_Exception e); simpl]].
    all: eexists _, _; (split; [reflexivity|]); simpl; split_and!; reflexivity.
Qed.

(** C4, as the code has it.  When a [NoSuchElementException] leaves the
    [try] suite of [get_crawling_scraping_result] (raised by a height
    query, the scroll or the retrieval of the source), the record has
    [is_error = True] and [exception_raised] equal to the string
    "The web is not loaded".  One raised by a poll of the ready state
    does not leave the suite: the wait counts it as "not yet". *)
Theorem get_crawling_scraping_result_missing_element web_url driver w :
  exists w' d,
    get_crawling_scraping_result web_url driver w = (w', Return d) /\
    (forall e,
       (crawling_try driver w).2 = Raise e ->
       exc_class e = NoSuchElementException ->
       d !! "is_error" = Some (PyBool true) /\
       d !! "exception_raised" = Some (PyStr "The web is not loaded")) /\
    (forall w0 t e,
       on_execute_script driver w0 ready_state_script = (t, Raise e) ->
       exc_class e = NoSuchElementException ->
       (attempt (page_is_complete driver) w0).2 = Again).
Proof.
  destruct (get_crawling_scraping_result_cases web_url driver w)
    as (w' & d & Hres & _ & _ & _ & _ & _ & _ & Herr & Hexc).
  exists w', d. split; [done|]. split.
  - intros e He Hclass. rewrite He in Herr, Hexc. split; [done|].
    rewrite Hexc. unfold isinstance. rewrite Hclass.
    by rewrite bool_decide_eq_false_2, bool_decide_eq_true_2.
  - intros w0 t e Hpoll Hclass. rewrite attempt_page_is_complete, Hpoll. simpl.
    unfold isinstance. by rewrite bool_decide_eq_true_2.
Qed.

(** C4 as the specification words it fails: with the height queries
    raising [NoSuchElementException], the error field is
    "The web is not loaded", not "ElementNotFound". *)
Lemma missing_element_field_is_not_ElementNotFound :
  let result := get_crawling_scraping_result "http://a.example"
                  no_element_browser start in
  (exists w1 e, crawling_try no_element_browser start = (w1, Raise e) /\
                exc_class e = NoSuchElementException) /\
  field result "is_error" = Some (PyBool true) /\
  field result "exception_raised" = Some (PyStr "The web is not loaded") /\
  field result "exception_raised" <> Some (PyStr "ElementNotFound").
Proof.
  cbv zeta. split_and!.
  - eexists _, _. split; [vm_compute; reflexivity|reflexivity].
  - by vm_compute.
  - by vm_compute.
  - vm_compute. discriminate.
Qed.

Lemma get_crawling_scraping_result_missing_element_witness :
  let result := get_crawling_scraping_result "http://a.example"
                  no_element_browser start in
  field result "is_error" = Some (PyBool true) /\
  field result "exception_raised" = Some (PyStr "The web is not loaded").
Proof.
  cbv zeta.
  destruct (get_crawling_scraping_result_missing_element
              "http://a.example" no_element_browser start)
    as (w' & d & Hres & Hmissing & _).
  unfold field. rewrite Hres. simpl.
  apply (Hmissing (mkExn NoSuchElementException "no such element")).
  - vm_compute. reflexivity.
  - reflexivity.
Defined.

(** C10.  [get_crawling_scraping_result] never navigates: the commands
    it issues are ready-state polls, the two height queries, the scroll
    and the retrieval of the source (with the sleeps in between), and no
    [driver.get].  Its record has exactly the five keys [web_url],
    [is_error], [scraped_elements], [scraping_initiation_time] and
    [exception_raised]; there is no [is_gambling_site]. *)
Theorem get_crawling_scraping_result_frame web_url driver w :
  exists w' d,
    get_crawling_scraping_result web_url driver w = (w', Return d) /\
    (exists evs,
       trace w' = trace w ++ evs /\
       Forall (fun ev => ev ∈ crawling_events) evs /\
       forall url, EvGet url ∉ evs) /\
    dom d = ({[ "web_url"; "is_error"; "scraped_elements";
                "scraping_initiation_time"; "exception_raised" ]} : gset string) /\
    d !! "is_gambling_site" = None.
Proof.
  destruct (get_crawling_scraping_result_cases web_url driver w)
    as (w' & d & Hres & _ & Htrace & Hdom & Hnone & _).
  exists w', d. split_and!; [done| |done|done].
  destruct (Emits_crawling_try driver w) as (evs & Ht & Hevs & _).
  exists evs. rewrite Htrace. split_and!; [done|done|].
  intros url Hin. rewrite Forall_forall in Hevs.
  specialize (Hevs _ Hin). unfold crawling_events in Hevs.
  repeat (apply elem_of_cons in Hevs as [Hevs|Hevs]; [discriminate|]).
  by apply elem_of_nil in Hevs.
Qed.

(** ** Sample runs of the invariants *)

Lemma get_scraping_result_invariant_witness :
  let ok := get_scraping_result "http://fits.example" false instant_browser 3 1 start in
  let ko := get_scraping_result "http://gone.example" true unreachable_browser 3 2 start in
  (field ok "is_error" = Some (PyBool false) /\
   field ok "scraped_elements" = Some (PyStr "<html>...</html>") /\
   field ok "exception_raised" = Some PyNone) /\
  (field ko "is_error" = Some (PyBool true) /\
   field ko "scraped_elements" = Some PyNone /\
   exists err, field ko "exception_raised" = Some err /\ err <> PyNone).
Proof.
  cbv zeta. split.
  - destruct (get_scraping_result_invariant
                "http://fits.example" false instant_browser 3 1 start)
      as (w' & d & Hres & _ & Hok & _).
    assert (Herr : d !! "is_error" = Some (PyBool false)).
    { change (field (w', Return d) "is_error" = Some (PyBool false)).
      rewrite <- Hres. vm_compute. reflexivity. }
    destruct (Hok Herr) as [_ Hnone].
    unfold field in *. rewrite Hres in *. simpl. split_and!; [done| |done].
    change (field (w', Return d) "scraped_elements" = Some (PyStr "<html>...</html>")).
    rewrite <- Hres. vm_compute. reflexivity.
  - destruct (get_scraping_result_invariant
                "http://gone.example" true unreachable_browser 3 2 start)
      as (w' & d & Hres & _ & _ & Hko).
    assert (Herr : d !! "is_error" = Some (PyBool true)).
    { change (field (w', Return d) "is_error" = Some (PyBool true)).
      rewrite <- Hres. vm_compute. reflexivity. }
    destruct (Hko Herr) as (Hnone & e & Htry & Hcaught & _).
    unfold field. rewrite Hres. simpl.
    refine (conj Herr (conj Hnone (Hcaught _))).
    assert (He : e = mkExn WebDriverException "net::ERR_NAME_NOT_RESOLVED").
    { revert Htry. vm_compute. by intros [= <-]. }
    by rewrite He.
Defined.

Lemma scraping_initiation_time_is_completion_time_witness :
  let ok := get_scraping_result "http://fits.example" false instant_browser 3 1 start in
  field ok "scraping_initiation_time" = Some (PyDatetime (clock ok.1)) /\
  clock start + 10000 <= clock ok.1.
Proof.
  cbv zeta.
  destruct (scraping_initiation_time_is_completion_time
              "http://fits.example" false instant_browser 3 1 start)
    as (w' & d & Hres & Htime & _ & _ & Hlate).
  unfold field. rewrite Hres. simpl. split; [done|]. apply Hlate.
  change (field (w', Return d) "is_error" = Some (PyBool false)).
  rewrite <- Hres. vm_compute. reflexivity.
Defined.

(** On the instant page the record is stamped 10137 ms after the start
    of the call: the navigation, one poll, the two pauses, the two height
    queries and the retrieval of the source all lie before it. *)
Example scraping_initiation_time_instant_page :
  field (get_scraping_result "http://fits.example" false instant_browser 3 1 start)
    "scraping_initiation_time" = Some (PyDatetime 10137).
Proof. vm_compute. reflexivity. Qed.

(** * Further properties of the helper *)

(** ** How a wait can end *)



Lemma until_loop_failed (method : M bool) Hm (end_time : N) (k : nat) :
  forall w w' e,
    (forall j, (j < k)%nat ->
       (attempt method (poll_world method w j)).2 = Again /\
       clock (attempt method (poll_world method w j)).1 <= end_time) ->
    attempt method (poll_world method w k) = (w', Failed e) ->
    until_loop method Hm end_time w = (w', Raise e).
Proof.
  intros w w' e Hbefore Hfailed.
  rewrite (until_loop_reaches method Hm end_time k w Hbefore).
  rewrite until_loop_eq. by rewrite Hfailed.
Qed.







(** A page that never becomes ready is polled 61 times when each poll
    takes 3 ms, and 62 times when polls take no time at all. *)
Example wait_until_page_ready_polls_never_ready :
  count_script ready_state_script
    (trace (wait_until_page_ready never_ready_browser start).1) = 61%nat /\
  count_script ready_state_script
    (trace (wait_until_page_ready frozen_browser start).1) = 62%nat /\
  clock (wait_until_page_ready never_ready_browser start).1 = 30183 /\
  length (trace (wait_until_page_ready never_ready_browser start).1) = 121%nat.
Proof. split_and!; vm_compute; reflexivity. Qed.



(** X5.  A poll that raises anything but a [NoSuchElementException] ends the
    wait at once: the exception leaves [wait_until_page_ready] right
    after that poll, without a further sleep or poll.  Polls before it
    that raised [NoSuchElementException] count as "not yet". *)
Theorem wait_until_page_ready_poll_failure driver w (k : nat) (d : N) e :
  let poll := poll_world (page_is_complete driver) w in
  (forall j, (j < k)%nat ->
     (attempt (page_is_complete driver) (poll j)).2 = Again /\
     clock (poll (S j)) <= clock w + 30000) ->
  on_execute_script driver (poll k) ready_state_script = (d, Raise e) ->
  exc_class e <> NoSuchElementException ->
  wait_until_page_ready driver w
    = (issue (EvExecuteScript ready_state_script) d (poll k), Raise e).
Proof.
  intros poll Hbefore Hraise Hclass.
  unfold wait_until_page_ready, WebDriverWait_until. rewrite bind_unfold.
  rewrite (until_loop_failed _ _ _ k w
             (issue (EvExecuteScript ready_state_script) d (poll k)) e);
    [done| |].
  - intros j Hj. destruct (Hbefore j Hj) as [Hagain Hclock].
    split; [done|]. unfold poll in Hclock.
    rewrite poll_world_succ, next_poll_clock in Hclock. lia.
  - rewrite attempt_page_is_complete. fold poll. rewrite Hraise. simpl.
    unfold isinstance. by rewrite bool_decide_eq_false_2.
Qed.

Lemma wait_until_page_ready_poll_failure_witness :
  wait_until_page_ready flaky_browser start
    = (issue (EvExecuteScript ready_state_script) 3
         (poll_world (page_is_complete flaky_browser) start 1),
       Raise (mkExn WebDriverException "chrome not reachable")).
Proof.
  apply (wait_until_page_ready_poll_failure flaky_browser start 1%nat 3).
  - intros j Hj. destruct j as [|j]; [|lia].
    vm_compute. split; [reflexivity|discriminate].
  - reflexivity.
  - discriminate.
Defined.

(** ** [is_vertical_scrollbar_present] on a page without heights *)

(** X6.  When the browser answers either height query with [null], the
    comparison raises [TypeError]; both queries have been issued by
    then. *)
Theorem is_vertical_scrollbar_present_null_height (driver : Browser)
    (w : World) (d1 d2 : N) (scroll_height viewport_height : JsVal) :
  on_execute_script driver w scroll_height_script
    = (d1, Return scroll_height) ->
  on_execute_script driver (issue (EvExecuteScript scroll_height_script) d1 w)
      viewport_height_script
    = (d2, Return viewport_height) ->
  scroll_height = JsNull \/ viewport_height = JsNull ->
  exists w' e,
    is_vertical_scrollbar_present driver w = (w', Raise e) /\
    exc_class e = TypeError /\
    trace w' = trace w ++ [EvExecuteScript scroll_height_script;
                           EvExecuteScript viewport_height_script].
Proof.
  intros H1 H2 Hnull. unfold is_vertical_scrollbar_present.
  rewrite bind_unfold. unfold execute_script at 1. rewrite H1.
  rewrite bind_unfold. unfold execute_script at 1. rewrite H2.
  unfold lift. simpl.
  assert (Hgt : exists e, py_gt scroll_height viewport_height = Raise e /\
                          exc_class e = TypeError).
  { destruct Hnull as [-> | ->].
    - eexists. split; reflexivity.
    - destruct scroll_height as [|b|z|s]; eexists; split; reflexivity. }
  destruct Hgt as (e & -> & Hclass).
  eexists _, e. split_and!; [done|done|]. simpl. by rewrite <- app_assoc.
Qed.

Lemma is_vertical_scrollbar_present_null_height_witness :
  exists w' e,
    is_vertical_scrollbar_present null_height_browser start = (w', Raise e) /\
    exc_class e = TypeError /\
    trace w' = trace start ++ [EvExecuteScript scroll_height_script;
                               EvExecuteScript viewport_height_script].
Proof.
  apply (is_vertical_scrollbar_present_null_height
           null_height_browser start 2 2 JsNull JsNull);
    [reflexivity|reflexivity|by left].
Defined.

(** ** The commands of a fetch *)

Lemma scraping_try_crawling_try driver web_url :
  scraping_try driver web_url = (driver_get driver web_url ;; crawling_try driver).
Proof. reflexivity. Qed.

Lemma crawling_events_no_get evs :
  Forall (fun ev => ev ∈ crawling_events) evs ->
  forall url, EvGet url ∉ evs.
Proof.
  intros Hevs url Hin. rewrite Forall_forall in Hevs.
  specialize (Hevs _ Hin). unfold crawling_events in Hevs.
  repeat (apply elem_of_cons in Hevs as [Hevs|Hevs]; [discriminate|]).
  by apply elem_of_nil in Hevs.
Qed.

(** X7.  [get_scraping_result] makes a single attempt: it navigates to
    [web_url] once, as its first command, and never navigates again,
    whatever the browser answers. *)
Theorem get_scraping_result_navigates_once web_url g driver n i w :
  exists w' d evs,
    get_scraping_result web_url g driver n i w = (w', Return d) /\
    trace w' = trace w ++ EvGet web_url :: evs /\
    Forall (fun ev => ev ∈ crawling_events) evs /\
    forall url, EvGet url ∉ evs.
Proof.
  destruct (get_scraping_result_cases web_url g driver n i w)
    as (w' & d & Hres & _ & Htrace & _).
  rewrite scraping_try_crawling_try, bind_unfold in Htrace.
  unfold driver_get in Htrace.
  destruct (on_get driver w web_url) as [t [[]|e]]; simpl in Htrace.
  - destruct (Emits_crawling_try driver (issue (EvGet web_url) t w))
      as (evs & Ht & Hevs & _).
    exists w', d, evs. rewrite Htrace, Ht. cbn [issue trace].
    rewrite <- app_assoc. cbn [app].
    split_and!; [done|done|done|by apply crawling_events_no_get].
  - exists w', d, []. rewrite Htrace.
    split_and!; [done|done|constructor|]. intros url Hin. by apply elem_of_nil in Hin.
Qed.

(** X8.  When the navigation itself raises, nothing else is asked of the
    browser: no wait, no pause, no script, no page source.  The record is
    an error record; a [TimeoutException] of the navigation (a page-load
    timeout) is reported with the same "Timeout Exception" string as a
    timeout of the ready-state wait, any other [Exception] as the
    exception itself, and an exception outside [Exception] leaves
    [exception_raised] at [None]. *)
Theorem get_scraping_result_navigation_fails web_url g driver n i w t e :
  on_get driver w web_url = (t, Raise e) ->
  exists w' d,
    get_scraping_result web_url g driver n i w = (w', Return d) /\
    trace w' = trace w ++ [EvGet web_url] /\
    clock w' = clock w + t /\
    d !! "is_error" = Some (PyBool true) /\
    d !! "scraped_elements" = Some PyNone /\
    d !! "exception_raised"
      = Some (if isinstance e TimeoutException then PyStr "Timeout Exception"
              else if isinstance_Exception e then PyExc e
              else PyNone).
Proof.
  intros Hget.
  destruct (get_scraping_result_cases web_url g driver n i w)
    as (w' & d & Hres & Hclock & Htrace & _ & _ & _ & Hcases).
  assert (Htry : scraping_try driver web_url w
                 = (issue (EvGet web_url) t w, Raise e)).
  { rewrite scraping_try_crawling_try, bind_unfold. unfold driver_get.
    by rewrite Hget. }
  rewrite Htry in Hclock, Htrace, Hcases. simpl in *.
  exists w', d. split_and!; try done.
  all: destruct Hcases as [(l & source & Hl & _)|(e' & [= <-] & H1 & H2 & H3)];
    done.
Qed.

Lemma get_scraping_result_navigation_fails_witness :
  (exists w' d,
     get_scraping_result "http://gone.example" true unreachable_browser 3 2 start
       = (w', Return d) /\
     trace w' = trace start ++ [EvGet "http://gone.example"] /\
     clock w' = clock start + 50 /\
     d !! "is_error" = Some (PyBool true) /\
     d !! "scraped_elements" = Some PyNone /\
     d !! "exception_raised"
       = Some (PyExc (mkExn WebDriverException "net::ERR_NAME_NOT_RESOLVED")))
  /\
  (exists w' d,
     get_scraping_result "http://a.example" true interrupted_browser 3 2 start
       = (w', Return d) /\
     trace w' = trace start ++ [EvGet "http://a.example"] /\
     clock w' = clock start + 700 /\
     d !! "is_error" = Some (PyBool true) /\
     d !! "scraped_elements" = Some PyNone /\
     d !! "exception_raised" = Some PyNone).
Proof.
  split.
  - apply (get_scraping_result_navigation_fails
             "http://gone.example" true unreachable_browser 3 2 start 50
             (mkExn WebDriverException "net::ERR_NAME_NOT_RESOLVED")).
    reflexivity.
  - apply (get_scraping_result_navigation_fails
             "http://a.example" true interrupted_browser 3 2 start 700
             (mkExn KeyboardInterrupt "")).
    reflexivity.
Defined.



(** ** The console *)

Lemma Silent_ret {A} (a : A) : Silent (mret a).
Proof. done. Qed.

Lemma Silent_bind {A B} (m : M A) (f : A -> M B) :
  Silent m -> (forall a, Silent (f a)) -> Silent (m ≫= f).
Proof.
  intros Hm Hf w. rewrite bind_unfold. specialize (Hm w).
  destruct (m w) as [w1 [a|e]]; simpl in *; [|done].
  by rewrite (Hf a w1).
Qed.

Lemma Silent_execute_script driver script : Silent (execute_script driver script).
Proof.
  intros w. unfold execute_script.
  by destruct (on_execute_script driver w script).
Qed.

Lemma Silent_time_sleep ms : Silent (time_sleep ms).
Proof. done. Qed.

Lemma until_loop_silent (method : M bool) Hm end_time w :
  Silent method -> stdout (until_loop method Hm end_time w).1 = stdout w.
Proof.
  intros Hs. funelim (until_loop method Hm end_time w).
  all: try clear Heqcall.
  all: assert (Hw1 : stdout (attempt method w).1 = stdout w)
         by (unfold attempt; specialize (Hs w);
             destruct (method w) as [? [[|]|e0]]; simpl in *; try done;
             by destruct (isinstance e0 NoSuchElementException)).
  all: match goal with
       | Ha : attempt _ _ = _ |- _ => rewrite Ha in Hw1; simpl in Hw1
       end.
  - done.
  - done.
  - done.
  - match goal with IH : Silent _ -> _ |- _ => rewrite (IH Hs) end. done.
Qed.

Lemma Silent_crawling_try driver : Silent (crawling_try driver).
Proof.
  unfold crawling_try.
  apply Silent_bind; [|intros _].
  { unfold wait_until_page_ready.
    apply Silent_bind; [|intros; apply Silent_ret].
    intros w. unfold WebDriverWait_until. apply until_loop_silent.
    unfold page_is_complete.
    apply Silent_bind; [apply Silent_execute_script|intros; apply Silent_ret]. }
  apply Silent_bind; [apply Silent_time_sleep|intros _].
  apply Silent_bind; [|intros _].
  { unfold scroll_if_needed. apply Silent_bind.
    - unfold is_vertical_scrollbar_present.
      apply Silent_bind; [apply Silent_execute_script|intros a].
      apply Silent_bind; [apply Silent_execute_script|intros b]. done.
    - intros [|]; [|apply Silent_ret].
      apply Silent_bind; [apply Silent_execute_script|intros; apply Silent_ret]. }
  apply Silent_bind; [apply Silent_time_sleep|intros _].
  apply Silent_bind; [|intros; apply Silent_ret].
  intros w. unfold page_source. by destruct (on_page_source driver w).
Qed.

Lemma Silent_scraping_try driver web_url : Silent (scraping_try driver web_url).
Proof.
  rewrite scraping_try_crawling_try.
  apply Silent_bind; [|intros; apply Silent_crawling_try].
  intros w. unfold driver_get. by destruct (on_get driver w web_url).
Qed.

(** X11.  What [get_scraping_result] prints.  Earlier output stays as it
    was.  A successful fetch adds three lines: the position in the batch
    with the URL, the error flag and the exception.  A failed fetch adds
    the same three lines, with the flag [True] and the exception field of
    the record, and puts an "Error occurred" line before them when an
    [except] clause caught the exception, that is, when it is an
    [Exception]; for an exception outside [Exception] no such line is
    printed. *)
Theorem get_scraping_result_console web_url g driver n i w :
  let finished := "[" +:+ pretty i +:+ "/" +:+ pretty n
                  +:+ "] scraping finished on " +:+ web_url in
  exists w' d lines,
    get_scraping_result web_url g driver n i w = (w', Return d) /\
    stdout w' = stdout w ++ lines /\
    (d !! "is_error" = Some (PyBool false) ->
     lines = [finished; tab +:+ "is error:  False"; tab +:+ "exception:  None"]) /\
    (d !! "is_error" = Some (PyBool true) ->
     exists e exc head,
       (scraping_try driver web_url w).2 = Raise e /\
       d !! "exception_raised" = Some exc /\
       lines = head ++ [finished; tab +:+ "is error:  True";
                        tab +:+ "exception:  " +:+ py_str exc] /\
       (isinstance_Exception e = true ->
          exists what, head = ["Error occurred: " +:+ what]) /\
       (isinstance_Exception e = false -> head = [])).
Proof.
  cbv zeta.
  pose proof (Silent_scraping_try driver web_url w) as Hsilent.
  unfold get_scraping_result, try_except_finally_return.
  destruct (scraping_try driver web_url w) as [w1 [l|e]] eqn:Htry;
    simpl in Hsilent.
  - apply scraping_try_return in Htry
      as (wa & wb & wd & source & _ & _ & _ & _ & ->).
    eexists _, _, _. split; [reflexivity|]. simpl. rewrite Hsilent.
    rewrite <- !app_assoc. split; [reflexivity|]. split; [done|].
    intros H. exfalso. revert H. by vm_compute.
  - unfold scraping_except.
    destruct (isinstance e TimeoutException) eqn:Ht; simpl.
    + eexists _, _, _. split; [reflexivity|]. simpl. rewrite Hsilent.
      rewrite <- !app_assoc. split; [reflexivity|].
      split; [intros H; exfalso; revert H; by vm_compute|].
      intros _.
      exists e, (PyStr "Timeout Exception"),
        ["Error occurred: " +:+ " Timeout Exception"].
      split_and!; [done|reflexivity|reflexivity|by eexists|].
      intros He. exfalso. unfold isinstance in Ht.
      apply bool_decide_eq_true_1 in Ht. unfold isinstance_Exception in He.
      by rewrite Ht in He.
    + destruct (isinstance_Exception e) eqn:Hexc; simpl.
      * eexists _, _, _. split; [reflexivity|]. simpl. rewrite Hsilent.
        rewrite <- !app_assoc. split; [reflexivity|].
        split; [intros H; exfalso; revert H; by vm_compute|].
        intros _.
        exists e, (PyExc e), ["Error occurred: " +:+ exc_message e].
        split_and!; [done|reflexivity|reflexivity|by eexists|congruence].
      * eexists _, _, _. split; [reflexivity|]. simpl. rewrite Hsilent.
        rewrite <- !app_assoc. split; [reflexivity|].
        split; [intros H; exfalso; revert H; by vm_compute|].
        intros _. exists e, PyNone, [].
        split_and!; [done|reflexivity|reflexivity|congruence|done].
Qed.

(** On the instant page, third of ten. *)
Example get_scraping_result_console_instant_page :
  stdout (get_scraping_result "http://fits.example" false instant_browser 10 3
            start).1
  = ["[3/10] scraping finished on http://fits.example";
     tab +:+ "is error:  False"; tab +:+ "exception:  None"].
Proof. vm_compute. reflexivity. Qed.

(** On the interrupted navigation: three lines, no "Error occurred". *)
Example get_scraping_result_console_interrupted :
  stdout (get_scraping_result "http://a.example" false interrupted_browser 10 3
            start).1
  = ["[3/10] scraping finished on http://a.example";
     tab +:+ "is error:  True"; tab +:+ "exception:  None"].
Proof. vm_compute. reflexivity. Qed.

(** ** The page source of a successful fetch *)

(** X10.  In a successful fetch [scraped_elements] is what the browser
    returned for the page source, asked once the second pause of 5
    seconds was over and as the last command of the fetch. *)
Theorem get_scraping_result_html_is_last_page_source web_url g driver n i w w' d :
  get_scraping_result web_url g driver n i w = (w', Return d) ->
  d !! "is_error" = Some (PyBool false) ->
  exists w_pre history t source,
    trace w_pre = history ++ [EvSleep 5000] /\
    on_page_source driver w_pre = (t, Return source) /\
    trace w' = trace w_pre ++ [EvPageSource] /\
    clock w' = clock w_pre + t /\
    d !! "scraped_elements" = Some (PyStr source).
Proof.
  intros Hres Hok.
  destruct (get_scraping_result_outcome web_url g driver n i w)
    as (w'' & Hres' & Hclock & Htrace).
  rewrite Hres in Hres'. injection Hres' as <- ->.
  destruct (scraping_try driver web_url w) as [w1 [l|e]] eqn:Htry.
  - apply scraping_try_return in Htry
      as (wa & wb & wd & source & _ & _ & _ & Hsrc & ->).
    simpl in Hclock, Htrace.
    unfold page_source in Hsrc.
    destruct (on_page_source driver (time_sleep 5000 wd).1) as [t r] eqn:Hq.
    injection Hsrc as <- ->.
    exists (time_sleep 5000 wd).1, (trace wd), t, source.
    split_and!; [done|done|by rewrite Htrace|by rewrite Hclock|reflexivity].
  - exfalso. revert Hok. simpl.
    destruct (isinstance e TimeoutException); by vm_compute.
Qed.

Lemma get_scraping_result_html_is_last_page_source_witness :
  exists w' d w_pre history t source,
    get_scraping_result "http://fits.example" false instant_browser 3 1 start
      = (w', Return d) /\
    trace w_pre = history ++ [EvSleep 5000] /\
    on_page_source instant_browser w_pre = (t, Return source) /\
    trace w' = trace w_pre ++ [EvPageSource] /\
    clock w' = clock w_pre + t /\
    d !! "scraped_elements" = Some (PyStr source).
Proof.
  destruct (get_scraping_result_outcome
              "http://fits.example" false instant_browser 3 1 start)
    as (w' & Hres & _).
  eexists w', _.
  destruct (get_scraping_result_html_is_last_page_source
              "http://fits.example" false instant_browser 3 1 start w' _ Hres)
    as (w_pre & history & t & source & H).
  { vm_compute. reflexivity. }
  exists w_pre, history, t, source. exact (conj Hres H).
Defined.

(** ** The keys of the record *)

(** X12.  The record of [get_scraping_result] has the same six keys on the
    success path and on the error path. *)
Theorem get_scraping_result_keys web_url g driver n i w :
  exists w' d,
    get_scraping_result web_url g driver n i w = (w', Return d) /\
    dom d = ({[ "web_url"; "is_gambling_site"; "is_error"; "scraped_elements";
                "scraping_initiation_time"; "exception_raised" ]} : gset string).
Proof.
  destruct (get_scraping_result_outcome web_url g driver n i w)
    as (w' & Hres & _).
  eexists w', _. split; [exact Hres|]. reflexivity.
Qed.

(** ** A fetch is a navigation followed by the crawling variant *)

(** X13.  Once the navigation has returned, [get_scraping_result] does to the
    browser exactly what [get_crawling_scraping_result] would do from
    there, and its record is the crawling record with the
    [is_gambling_site] key added: unless a [NoSuchElementException]
    leaves the steps, which only the crawling variant renames. *)
Theorem get_scraping_result_extends_crawling web_url g driver n i w w0 :
  driver_get driver web_url w = (w0, Return ()) ->
  (forall e, (crawling_try driver w0).2 = Raise e ->
             exc_class e <> NoSuchElementException) ->
  exists ws ds wc dc,
    get_scraping_result web_url g driver n i w = (ws, Return ds) /\
    get_crawling_scraping_result web_url driver w0 = (wc, Return dc) /\
    ds = <["is_gambling_site" := PyBool g]> dc /\
    delete "is_gambling_site" ds = dc /\
    trace ws = trace wc /\ clock ws = clock wc.
Proof.
  intros Hget Hclass.
  assert (Htry : scraping_try driver web_url w = crawling_try driver w0).
  { by rewrite scraping_try_crawling_try, bind_unfold, Hget. }
  unfold get_scraping_result, get_crawling_scraping_result,
    try_except_finally_return.
  rewrite Htry.
  destruct (crawling_try driver w0) as [w1 [l|e]] eqn:Hc; simpl.
  - eexists _, _, _, _. split; [reflexivity|]. split; [reflexivity|].
    simpl. split_and!; reflexivity.
  - specialize (Hclass e eq_refl).
    unfold scraping_except, crawling_except.
    destruct (isinstance e TimeoutException) eqn:Ht; simpl.
    + eexists _, _, _, _. split; [reflexivity|]. split; [reflexivity|].
      simpl. split_and!; reflexivity.
    + unfold isinstance at 1. rewrite bool_decide_eq_false_2; [|done]. simpl.
      destruct (isinstance_Exception e); simpl.
      * eexists _, _, _, _. split; [reflexivity|]. split; [reflexivity|].
        simpl. split_and!; reflexivity.
      * eexists _, _, _, _. split; [reflexivity|]. split; [reflexivity|].
        simpl. split_and!; reflexivity.
Qed.

Lemma get_scraping_result_extends_crawling_witness :
  let url := "http://tall.example" in
  let w0 := (driver_get tall_browser url start).1 in
  exists ws ds wc dc,
    get_scraping_result url true tall_browser 10 1 start = (ws, Return ds) /\
    get_crawling_scraping_result url tall_browser w0 = (wc, Return dc) /\
    ds = <["is_gambling_site" := PyBool true]> dc /\
    delete "is_gambling_site" ds = dc /\
    trace ws = trace wc /\ clock ws = clock wc.
Proof.
  cbv zeta.
  apply (get_scraping_result_extends_crawling
           "http://tall.example" true tall_browser 10 1 start).
  - reflexivity.
  - intros e. vm_compute. discriminate.
Defined.

(** ** The record of [get_crawling_scraping_result] *)

Lemma crawling_try_return driver w w1 l :
  crawling_try driver w = (w1, Return l) ->
  (exists source, l = mkLocals false (PyStr source) PyNone) /\
  clock w + 10000 <= clock w1.
Proof.
  unfold crawling_try. intros H.
  apply bind_return_inv in H as (wb & [] & Hb & H).
  apply bind_return_inv in H as (wb' & [] & [= <-] & H).
  apply bind_return_inv in H as (wd & [] & Hd & H).
  apply bind_return_inv in H as (wd' & [] & [= <-] & H).
  apply bind_return_inv in H as (we & source & He & [= <- <-]).
  split; [by exists source|].
  pose proof (clock_mono (wait_until_page_ready driver) w
                ltac:(by apply Emits_wait_until_page_ready)) as H2.
  pose proof (clock_mono (scroll_if_needed driver)
                (issue (EvSleep 5000) 5000 wb)
                ltac:(by apply Emits_scroll_if_needed)) as H3.
  pose proof (clock_mono (page_source driver)
                (issue (EvSleep 5000) 5000 wd)
                ltac:(by apply Emits_page_source)) as H4.
  rewrite Hb in H2. rewrite Hd in H3. rewrite He in H4.
  simpl in *. lia.
Qed.

(** X14.  [get_crawling_scraping_result] always returns a record, whatever the
    browser does.  Its [is_error] is [False] exactly when the steps went
    through, and then [scraped_elements] is a string and
    [exception_raised] is [None]; otherwise [is_error] is [True] and
    [scraped_elements] is [None], and [exception_raised] is not [None]
    when the exception derives from [Exception], but is still [None] when
    it does not (a [KeyboardInterrupt], a [SystemExit]): no clause of the
    code catches it, and the [return] of the [finally] block drops it. *)
Theorem get_crawling_scraping_result_invariant web_url driver w :
  exists w' d,
    get_crawling_scraping_result web_url driver w = (w', Return d) /\
    ((exists l, (crawling_try driver w).2 = Return l) /\
     d !! "is_error" = Some (PyBool false) /\
     (exists html, d !! "scraped_elements" = Some (PyStr html)) /\
     d !! "exception_raised" = Some PyNone
     \/
     d !! "is_error" = Some (PyBool true) /\
     d !! "scraped_elements" = Some PyNone /\
     exists e, (crawling_try driver w).2 = Raise e /\
       (isinstance_Exception e = true ->
        exists err, d !! "exception_raised" = Some err /\ err <> PyNone) /\
       (isinstance_Exception e = false ->
        d !! "exception_raised" = Some PyNone)).
Proof.
  unfold get_crawling_scraping_result, try_except_finally_return.
  destruct (crawling_try driver w) as [w1 [l|e]] eqn:Htry; simpl.
  - apply crawling_try_return in Htry as [[source ->] _].
    eexists _, _. split; [reflexivity|]. left.
    split_and!; [by eexists|reflexivity|by exists source|reflexivity].
  - unfold crawling_except.
    destruct (isinstance e TimeoutException) eqn:Ht; simpl;
      [|destruct (isinstance e NoSuchElementException) eqn:Hn; simpl;
        [|destruct (isinstance_Exception e) eqn:Hexc; simpl]].
    all: eexists _, _; (split; [reflexivity|]); right.
    all: split_and!; [reflexivity|reflexivity|].
    all: exists e; split; [reflexivity|].
    + split; [|intros Hf].
      * intros _. eexists; (split; [reflexivity|done]).
      * exfalso. revert Ht Hf. unfold isinstance, isinstance_Exception.
        destruct (exc_class e); simpl; intros; try congruence.
        all: by rewrite bool_decide_eq_true in Ht.
    + split; [|intros Hf].
      * intros _. eexists; (split; [reflexivity|done]).
      * exfalso. revert Hn Hf. unfold isinstance, isinstance_Exception.
        destruct (exc_class e); simpl; intros; try congruence.
        all: by rewrite bool_decide_eq_true in Hn.
    + split; [|congruence].
      intros _. eexists; (split; [reflexivity|done]).
    + split; [congruence|]. intros _. reflexivity.
Qed.

(** X15.  The crawling record carries the URL it was given, and its
    [scraping_initiation_time] is the clock at the end of the call, when
    the steps had completed or raised: not before the call started, and
    at least the two pauses of 5 seconds later when the steps went
    through. *)
Theorem get_crawling_scraping_result_url_and_time web_url driver w :
  exists w' d,
    get_crawling_scraping_result web_url driver w = (w', Return d) /\
    d !! "web_url" = Some (PyStr web_url) /\
    d !! "scraping_initiation_time" = Some (PyDatetime (clock w')) /\
    clock w' = clock (crawling_try driver w).1 /\
    clock w <= clock w' /\
    (d !! "is_error" = Some (PyBool false) -> clock w + 10000 <= clock w').
Proof.
  destruct (get_crawling_scraping_result_cases web_url driver w)
    as (w' & d & Hres & Hclock & _ & _ & _ & Hurl & Htime & Herr & _).
  exists w', d. split_and!; try done.
  - rewrite Hclock.
    destruct (Emits_crawling_try driver w) as (_ & _ & _ & Hc). exact Hc.
  - rewrite Herr, Hclock.
    destruct (crawling_try driver w) as [w1 [l|e]] eqn:Htry; simpl; [|done].
    intros _. by apply crawling_try_return in Htry as [_ ?].
Qed.

(** X16.  The error field of the crawling variant, for every exception that
    leaves the steps: "Timeout Exception" for a [TimeoutException],
    "The web is not loaded" for a [NoSuchElementException], the exception
    object itself for any other exception derived from [Exception], and
    [None] for one that is not (a [KeyboardInterrupt], a [SystemExit]),
    which no clause catches. *)
Theorem get_crawling_scraping_result_error_field web_url driver w e :
  (crawling_try driver w).2 = Raise e ->
  exists w' d,
    get_crawling_scraping_result web_url driver w = (w', Return d) /\
    d !! "is_error" = Some (PyBool true) /\
    d !! "scraped_elements" = Some PyNone /\
    d !! "exception_raised"
      = Some (match exc_class e with
              | TimeoutException => PyStr "Timeout Exception"
              | NoSuchElementException => PyStr "The web is not loaded"
              | KeyboardInterrupt | SystemExit | OtherBaseException _ => PyNone
              | _ => PyExc e
              end).
Proof.
  intros Htry.
  unfold get_crawling_scraping_result, try_except_finally_return.
  destruct (crawling_try driver w) as [w1 r]. simpl in Htry. subst r.
  unfold crawling_except, isinstance, isinstance_Exception.
  destruct e as [cls msg]. simpl.
  destruct cls; simpl; eexists _, _; (split; [reflexivity|]);
    split_and!; reflexivity.
Qed.

Lemma get_crawling_scraping_result_error_field_witness :
  exists w' d,
    get_crawling_scraping_result "http://slow.example" never_ready_browser start
      = (w', Return d) /\
    d !! "is_error" = Some (PyBool true) /\
    d !! "scraped_elements" = Some PyNone /\
    d !! "exception_raised" = Some (PyStr "Timeout Exception").
Proof.
  apply (get_crawling_scraping_result_error_field
           "http://slow.example" never_ready_browser start timeout_exception).
  vm_compute. reflexivity.
Defined.

(** * Properties of [get_webdriver] *)

Lemma desk_bind_unfold {A C} (m : B A) (f : A -> B C) (w : Desk) :
  (m ≫= f) w =
  match m w with
  | (w', Return a) => f a w'
  | (w', Raise e) => (w', Raise e)
  end.
Proof. reflexivity. Qed.

Lemma desk_bind_return_inv {A C} (m : B A) (f : A -> B C) (w w' : Desk) (c : C) :
  (m ≫= f) w = (w', Return c) ->
  exists w1 a, m w = (w1, Return a) /\ f a w1 = (w', Return c).
Proof.
  rewrite desk_bind_unfold. destruct (m w) as [w1 [a|e]]; [|done].
  intros H. by exists w1, a.
Qed.







(** Run on a browser that never opens a second window: the call gives up
    121.1 seconds after the start, after 239 polls and 238 sleeps, right
    after a poll. *)
Example get_webdriver_quiet_chrome :
  let out := get_webdriver quiet_chrome desk_start in
  out.2 = Raise timeout_exception /\
  desk_clock out.1 = 121100 /\
  length (desk_trace out.1) = 479%nat /\
  last (desk_trace out.1) = Some DWindowHandles.
Proof. vm_compute. by split_and!. Qed.




(** X19.  When [get_webdriver] returns, what it did after the new window had
    shown up is: sleep 3 seconds, list the windows, switch to the second
    of them, close it, list the windows again and switch to the first of
    those.  One window is closed, and no other command is issued. *)
Theorem get_webdriver_closes_second_window chrome w w' :
  get_webdriver chrome w = (w', Return ()) ->
  exists w_ready handles welcome w_closed remaining main,
    start_chrome chrome w = (w_ready, Return ()) /\
    (on_window_handles chrome (desk_sleep 3000 w_ready).1).2 = Return handles /\
    handles !! 1%nat = Some welcome /\
    desk_trace w_closed
      = desk_trace w_ready
        ++ [DSleep 3000; DWindowHandles; DSwitchTo welcome; DClose] /\
    (on_window_handles chrome w_closed).2 = Return remaining /\
    remaining !! 0%nat = Some main /\
    desk_trace w' = desk_trace w_closed ++ [DWindowHandles; DSwitchTo main].
Proof.
  unfold get_webdriver. intros H.
  apply desk_bind_return_inv in H as (w_ready & [] & Hstart & H).
  apply desk_bind_return_inv in H as (w_slept & [] & [= <-] & H).
  unfold close_welcome_tab in H.
  apply desk_bind_return_inv in H as (w1 & handles & Hh1 & H).
  apply desk_bind_return_inv in H as (w1' & welcome & Hget1 & H).
  apply desk_bind_return_inv in H as (w2 & [] & Hsw1 & H).
  apply desk_bind_return_inv in H as (w3 & [] & Hclose & H).
  apply desk_bind_return_inv in H as (w4 & remaining & Hh2 & H).
  apply desk_bind_return_inv in H as (w4' & main & Hget2 & Hsw2).
  unfold desk_lift in Hget1, Hget2.
  injection Hget1 as <- Hget1. injection Hget2 as <- Hget2.
  unfold py_getitem in Hget1, Hget2.
  destruct (handles !! 1%nat) as [h1|] eqn:Hi1; [|done].
  destruct (remaining !! 0%nat) as [h0|] eqn:Hi0; [|done].
  injection Hget1 as ->. injection Hget2 as ->.
  unfold window_handles in Hh1, Hh2.
  destruct (on_window_handles chrome (desk_issue (DSleep 3000) 3000 w_ready))
    as [t1 r1] eqn:Hq1.
  injection Hh1 as <- ->.
  unfold switch_to_window in Hsw1, Hsw2.
  destruct (on_switch_to_window chrome _ welcome) as [t2 r2].
  injection Hsw1 as <- _.
  unfold close in Hclose.
  destruct (on_close chrome _) as [t3 r3]. injection Hclose as <- _.
  destruct (on_window_handles chrome _) as [t4 r4] eqn:Hq2 in Hh2.
  injection Hh2 as <- ->.
  destruct (on_switch_to_window chrome _ main) as [t5 r5].
  injection Hsw2 as <- _.
  exists w_ready, handles, welcome,
    (desk_issue DClose t3
       (desk_issue (DSwitchTo welcome) t2
          (desk_issue DWindowHandles t1
             (desk_issue (DSleep 3000) 3000 w_ready)))),
    remaining, main.
  split_and!; [done| |done| | |done|].
  - simpl. by rewrite Hq1.
  - simpl. by rewrite <- !app_assoc.
  - by rewrite Hq2.
  - simpl. by rewrite <- !app_assoc.
Qed.

Lemma get_webdriver_closes_second_window_witness :
  let w' := (get_webdriver welcoming_chrome desk_start).1 in
  exists w_ready handles welcome w_closed remaining main,
    start_chrome welcoming_chrome desk_start = (w_ready, Return ()) /\
    (on_window_handles welcoming_chrome (desk_sleep 3000 w_ready).1).2
      = Return handles /\
    handles !! 1%nat = Some welcome /\
    desk_trace w_closed
      = desk_trace w_ready
        ++ [DSleep 3000; DWindowHandles; DSwitchTo welcome; DClose] /\
    (on_window_handles welcoming_chrome w_closed).2 = Return remaining /\
    remaining !! 0%nat = Some main /\
    desk_trace w' = desk_trace w_closed ++ [DWindowHandles; DSwitchTo main].
Proof.
  apply (get_webdriver_closes_second_window welcoming_chrome desk_start).
  vm_compute. reflexivity.
Defined.

(** Run on the sample session: the welcome tab is the window closed, the
    main window the one left in focus. *)
Example get_webdriver_welcoming_chrome :
  get_webdriver welcoming_chrome desk_start
  = ({| desk_clock := 4944;
        desk_trace :=
          [DLaunch chrome_arguments ["/srv/scraper/adblock.crx"];
           DWindowHandles;
           DWindowHandles; DSleep 500; DWindowHandles; DSleep 500;
           DWindowHandles;
           DSleep 3000; DWindowHandles; DSwitchTo "welcome"; DClose;
           DWindowHandles; DSwitchTo "main"] |},
     Return ()).
Proof. vm_compute. reflexivity. Qed.

(** X20.  If, after the pause of 3 seconds, the browser lists fewer than two
    windows, [driver.window_handles[1]] raises [IndexError], which
    reaches the caller; no window has been switched to or closed. *)
Theorem get_webdriver_index_error chrome w w_ready t handles :
  start_chrome chrome w = (w_ready, Return ()) ->
  on_window_handles chrome (desk_sleep 3000 w_ready).1 = (t, Return handles) ->
  (length handles < 2)%nat ->
  exists e,
    get_webdriver chrome w
      = (desk_issue DWindowHandles t (desk_sleep 3000 w_ready).1, Raise e) /\
    exc_class e = OtherException "IndexError".
Proof.
  intros Hstart Hq Hlen. unfold get_webdriver.
  rewrite desk_bind_unfold, Hstart, desk_bind_unfold. cbn [desk_sleep].
  unfold close_welcome_tab. rewrite desk_bind_unfold.
  unfold window_handles at 1. cbn [desk_sleep fst] in Hq. rewrite Hq.
  rewrite desk_bind_unfold. unfold desk_lift at 1, py_getitem at 1.
  rewrite (lookup_ge_None_2 handles 1) by lia.
  eexists. split; reflexivity.
Qed.

Lemma get_webdriver_index_error_witness :
  exists e,
    get_webdriver fleeting_chrome desk_start
      = (desk_issue DWindowHandles 5
           (desk_sleep 3000 (start_chrome fleeting_chrome desk_start).1).1,
         Raise e) /\
    exc_class e = OtherException "IndexError".
Proof.
  apply (get_webdriver_index_error fleeting_chrome desk_start
           (start_chrome fleeting_chrome desk_start).1 5 ["main"]).
  - vm_compute. reflexivity.
  - vm_compute. reflexivity.
  - simpl. lia.
Defined.

(** * Properties of [setup_logger] *)

Lemma string_app_nil_r (s : string) : s +:+ "" = s.
Proof.
  induction s as [|c s IH]; [done|].
  change (String c s +:+ "") with (String c (s +:+ "")). by rewrite IH.
Qed.

Lemma strftime_datefmt (t : struct_time) :
  strftime "%Y-%m-%d %H:%m:%S" t
  = Some (pretty (tm_year t) +:+ "-" +:+ two_digits (tm_mon t) +:+ "-"
          +:+ two_digits (tm_mday t) +:+ " " +:+ two_digits (tm_hour t) +:+ ":"
          +:+ two_digits (tm_mon t) +:+ ":" +:+ two_digits (tm_sec t)).
Proof.
  transitivity
    (Some (pretty (tm_year t) +:+ "-" +:+ two_digits (tm_mon t) +:+ "-"
           +:+ two_digits (tm_mday t) +:+ " " +:+ two_digits (tm_hour t) +:+ ":"
           +:+ two_digits (tm_mon t) +:+ ":" +:+ two_digits (tm_sec t) +:+ ""));
    [reflexivity|].
  by rewrite string_app_nil_r.
Qed.

Lemma brace_format_line (asctime file func msg : string) :
  brace_format "{asctime} - ({filename}: {funcName}) -> {message}" None
    (list_to_map [ ("asctime", asctime); ("filename", file);
                   ("funcName", func); ("message", msg) ])
  = Some (asctime +:+ " - (" +:+ file +:+ ": " +:+ func +:+ ") -> " +:+ msg).
Proof.
  transitivity
    (Some (asctime +:+ " - (" +:+ file +:+ ": " +:+ func +:+ ") -> "
           +:+ msg +:+ "")); [reflexivity|].
  by rewrite string_app_nil_r.
Qed.

(** X21.  After [setup_logger] on an unconfigured root logger, every record at
    level [DEBUG] or above leaves exactly one line,
    [<time> - (<file>: <function>) -> <message>].  The time shows year,
    month, day, hour, then the month once more where the minutes are
    expected (the date format says [%m], not [%M]), then the seconds: the
    minute of the record is not in the line, and records that differ only
    in their minute leave the same line. *)
Theorem setup_logger_line (r : LogRecord) :
  DEBUG <= levelno r ->
  let t := created r in
  let asctime :=
    pretty (tm_year t) +:+ "-" +:+ two_digits (tm_mon t) +:+ "-"
    +:+ two_digits (tm_mday t) +:+ " " +:+ two_digits (tm_hour t) +:+ ":"
    +:+ two_digits (tm_mon t) +:+ ":" +:+ two_digits (tm_sec t) in
  emit (setup_logger fresh_root) r
    = [Some (asctime +:+ " - (" +:+ filename r +:+ ": " +:+ funcName r
             +:+ ") -> " +:+ message r)] /\
  forall minute,
    emit (setup_logger fresh_root)
      (mkLogRecord (levelno r)
         (mk_struct_time (tm_year t) (tm_mon t) (tm_mday t) (tm_hour t)
            minute (tm_sec t))
         (filename r) (funcName r) (message r))
    = emit (setup_logger fresh_root) r.
Proof.
  intros Hlevel. cbv zeta.
  assert (Hline : forall r0, DEBUG <= levelno r0 ->
    emit (setup_logger fresh_root) r0
    = [Some ((pretty (tm_year (created r0)) +:+ "-"
              +:+ two_digits (tm_mon (created r0)) +:+ "-"
              +:+ two_digits (tm_mday (created r0)) +:+ " "
              +:+ two_digits (tm_hour (created r0)) +:+ ":"
              +:+ two_digits (tm_mon (created r0)) +:+ ":"
              +:+ two_digits (tm_sec (created r0)))
             +:+ " - (" +:+ filename r0 +:+ ": " +:+ funcName r0
             +:+ ") -> " +:+ message r0)]).
  { intros r0 H0. unfold emit, setup_logger, basicConfig, fresh_root.
    cbn [root_handlers root_level].
    apply N.leb_le in H0. rewrite H0. cbn [map]. f_equal.
    unfold formatter_format. cbn [formatter_datefmt formatter_fmt].
    rewrite strftime_datefmt. cbn [mbind option_bind].
    apply brace_format_line. }
  split; [by apply Hline|].
  intros minute. by rewrite !Hline.
Qed.

Lemma setup_logger_line_witness :
  let r := mkLogRecord 20 (mk_struct_time 2024 3 7 14 25 59)
             "helper.py" "get_webdriver" "driver ready" in
  emit (setup_logger fresh_root) r
    = [Some "2024-03-07 14:03:59 - (helper.py: get_webdriver) -> driver ready"].
Proof.
  cbv zeta.
  rewrite (proj1 (setup_logger_line
                    (mkLogRecord 20 (mk_struct_time 2024 3 7 14 25 59)
                       "helper.py" "get_webdriver" "driver ready")
                    ltac:(vm_compute; discriminate))).
  vm_compute. reflexivity.
Defined.
